(** * A shallow embedding of kvk-connect's synchronisation core

    Timestamps are integers (seconds, or whole days in the examples); subject
    keys (KvK numbers) are strings.  Components:
    - [TimeSelector]: the time-window partitioner [get_timeselector];
    - [AutoWindow]: [resolve_time_window_auto] of the mutatie-reader app;
    - [Reader]: the queries of [BasisProfielReader];
    - [Fetch]: the pagination loop [fetch_all_mutaties];
    - [Writer]: the batched, scoped [BasisProfielWriter];
    - [Dates]: the date parser [parse_kvk_datum]. *)

From Stdlib Require Import ZArith List Lia Bool String Ascii Permutation.
Import ListNotations.
Open Scope Z_scope.

Module TimeSelector.

(** Modelled from the spec: [kvk_connect.utils.tools.get_timeselector] (the
    module is not part of the sources).  Section 4.1: starting at [from],
    repeatedly emit [cursor, min(cursor + S, to)) and advance [cursor] to the
    emitted window's end, until [cursor == to]; [to <= from] gives no window.
    The loop is written with fuel: every round advances the cursor by at
    least one unit when [S > 0], so [to - from] rounds suffice. *)
Fixpoint windows_from (span to_time : Z) (fuel : nat) (cursor : Z)
  : list (Z * Z) :=
  match fuel with
  | O => []
  | S fuel' =>
      if cursor <? to_time then
        let e := Z.min (cursor + span) to_time in
        (cursor, e) :: windows_from span to_time fuel' e
      else []
  end.

Definition get_timeselector_span (span from_time to_time : Z) : list (Z * Z) :=
  windows_from span to_time (Z.to_nat (to_time - from_time)) from_time.

(** The fixed maximum span: 7 days, in seconds. *)
Definition MAX_SPAN : Z := 7 * 24 * 60 * 60.

Definition get_timeselector (from_time to_time : Z) : list (Z * Z) :=
  get_timeselector_span MAX_SPAN from_time to_time.

(** [tiles c t ws]: the windows [ws] are non-empty, start at [c], each one
    starts where the previous one ends, and the last one ends at [t]. *)
Fixpoint tiles (c t : Z) (ws : list (Z * Z)) : Prop :=
  match ws with
  | [] => c = t
  | (a, b) :: r => a = c /\ a < b /\ tiles b t r
  end.

(** Every window but the last has length exactly [span]; the last at most. *)
Fixpoint spans_ok (span : Z) (ws : list (Z * Z)) : Prop :=
  match ws with
  | [] => True
  | (a, b) :: r =>
      match r with
      | [] => b - a <= span
      | _ :: _ => b - a = span
      end /\ spans_ok span r
  end.

Definition in_window (t : Z) (w : Z * Z) : Prop := fst w <= t < snd w.

End TimeSelector.

Module AutoWindow.

Definition MINUTE : Z := 60.
Definition DAY : Z := 24 * 60 * 60.

(** Modelled from the spec: [SignaalReader.get_last_timestamp] (the module is
    not part of the sources): the timestamp of the last persisted signal, or
    [None] when the signal table is empty. *)
Definition get_last_timestamp (signal_timestamps : list Z) : option Z :=
  match signal_timestamps with
  | [] => None
  | t :: ts => Some (fold_left Z.max ts t)
  end.

(** [resolve_time_window_auto] (apps/mutatie-reader/main.py):
    [to_time = now - 1 minute];
    [from_time = repo_last if repo_last else to_time - 1 day].
    A [datetime] is always truthy, so only [None] takes the fallback. *)
Definition resolve_time_window_auto (now : Z) (repo_last : option Z) : Z * Z :=
  let to_time := now - MINUTE in
  let from_time :=
    match repo_last with
    | Some t => t
    | None => to_time - DAY
    end in
  (from_time, to_time).

(** The same function reading the store through [get_last_timestamp]. *)
Definition resolve_auto_on_store (now : Z) (signal_timestamps : list Z) : Z * Z :=
  resolve_time_window_auto now (get_last_timestamp signal_timestamps).

End AutoWindow.

(** ** The store *)
Module Store.

(** A row of the [signaal] table ([SignaalORM]). *)
Record Signaal := mkSignaal {
  signaal_id : string;
  kvknummer : string;
  vestigingsnummer : option string;
  timestamp : Z;
  signaal_type : string
}.

(** A row of the [basisprofiel] table ([BasisProfielORM]); only the columns
    the code reads or writes by name are kept. *)
Record BasisProfielORM := mkBasisProfielORM {
  kvk_nummer : string;
  naam : option string;
  rechtsvorm : option string;
  totaal_werkzame_personen : option Z;
  last_updated : Z
}.

Record DB := mkDB {
  signalen : list Signaal;
  basisprofielen : list BasisProfielORM
}.

(** SQL [DISTINCT] over a scan: keeps the first occurrence of every key, in
    scan order. *)
Fixpoint distinct_seen (seen : list string) (xs : list string) : list string :=
  match xs with
  | [] => []
  | x :: r =>
      if existsb (String.eqb x) seen then distinct_seen seen r
      else x :: distinct_seen (x :: seen) r
  end.

Definition distinct (xs : list string) : list string := distinct_seen [] xs.

End Store.

Module Reader.
Import Store.

Definition has_profile (db : DB) (k : string) : bool :=
  existsb (fun b => String.eqb (kvk_nummer b) k) (basisprofielen db).

(** [select(SignaalORM.kvknummer)
       .outerjoin(BasisProfielORM, kvknummer == kvk_nummer)
       .where(BasisProfielORM.kvk_nummer.is_(None)).distinct().limit(limit)]:
    a signal with no matching profile gives one row whose profile columns
    are NULL; a signal with a match gives only non-NULL rows, all filtered. *)
Definition missing_query (db : DB) (limit : nat) : list string :=
  firstn limit
    (distinct (map kvknummer
       (filter (fun s => negb (has_profile db (kvknummer s))) (signalen db)))).

Fixpoint remove_nth {A} (i : nat) (xs : list A) : list A :=
  match i, xs with
  | _, [] => []
  | O, _ :: r => r
  | S i', x :: r => x :: remove_nth i' r
  end.

(** [random.sample(population, k)]: [k] draws without replacement; the
    random source is the list [rng] of raw draws (an exhausted source draws
    0).  Every outcome of [random.sample] is [sample_with rng pop k] for
    some [rng]. *)
Fixpoint sample_with {A} (rng : list nat) (pool : list A) (k : nat) : list A :=
  match k with
  | O => []
  | S k' =>
      let i := Nat.modulo (hd O rng) (List.length pool) in
      match nth_error pool i with
      | Some x => x :: sample_with (tl rng) (remove_nth i pool) k'
      | None => []
      end
  end.

(** [BasisProfielReader.get_missing_kvk_nummers]. *)
Definition get_missing_kvk_nummers (rng : list nat) (db : DB) (limit : nat)
  : list string :=
  let all_kvk_nrs := missing_query db limit in
  sample_with rng all_kvk_nrs (Nat.min limit (List.length all_kvk_nrs)).

(** [BasisProfielReader.get_outdated_kvk_nummers]: inner join of signals and
    profiles on the KvK number, [timestamp > last_updated] and
    [vestigingsnummer IS NULL], then [DISTINCT] and [LIMIT]. *)
Definition get_outdated_kvk_nummers (db : DB) (limit : nat) : list string :=
  firstn limit
    (distinct
       (flat_map (fun s =>
          map (fun _ => kvknummer s)
            (filter (fun b =>
                String.eqb (kvknummer s) (kvk_nummer b) &&
                (last_updated b <? timestamp s) &&
                match vestigingsnummer s with None => true | Some _ => false end)
              (basisprofielen db)))
          (signalen db))).

(** The staleness relation of the spec, stated on the tables. *)
Definition outdated_key (db : DB) (k : string) : Prop :=
  exists s b, In s (signalen db) /\ In b (basisprofielen db) /\
    kvknummer s = k /\ kvk_nummer b = k /\
    last_updated b < timestamp s /\ vestigingsnummer s = None.

End Reader.

Module Fetch.
Import Store.

(** The [signalen] attribute of a page object: missing
    ([hasattr(nxt, "signalen")] false), present but [None], or a list. *)
Inductive SignalenField :=
| NoSignalen
| SignalenNone
| Signalen (ss : list Signaal).

(** [MutatiesAPI]. *)
Record MutatiesAPI := mkMutatiesAPI {
  pagina : Z;
  totaal : Z;
  totaal_paginas : Z;
  signalen_attr : SignalenField
}.

(** The client's answer for a page: [None] is Python's [None]. *)
Definition Client := Z -> option MutatiesAPI.

(** What the generator does, in order: a request for a page, or a yield. *)
Inductive event :=
| Request (page : Z)
| Yield (s : Signaal).

(** [AttributeError]: an attribute read on [None] or a missing attribute;
    [TypeError]: [len(None)] or [for s in None]. *)
Inductive exc := AttributeError | TypeError.

(** [range(start, stop)] *)
Fixpoint range_from (start : Z) (n : nat) : list Z :=
  match n with
  | O => []
  | S n' => start :: range_from (start + 1) n'
  end.

Definition py_range (start stop : Z) : list Z :=
  range_from start (Z.to_nat (stop - start)).

(** The loop [for page in range(2, first.totaal_paginas + 1)]: the guard
    [nxt is not None and hasattr(nxt, "signalen")] skips a [None] page and a
    page without the attribute; [for s in nxt.signalen] raises on [None]. *)
Fixpoint fetch_rest (client : Client) (pages : list Z) : list event * option exc :=
  match pages with
  | [] => ([], None)
  | page :: ps =>
      match client page with
      | Some nxt =>
          match signalen_attr nxt with
          | Signalen ss =>
              let (tr, e) := fetch_rest client ps in (Request page :: map Yield ss ++ tr, e)
          | SignalenNone => ([Request page], Some TypeError)
          | NoSignalen =>
              let (tr, e) := fetch_rest client ps in (Request page :: tr, e)
          end
      | None =>
          let (tr, e) := fetch_rest client ps in (Request page :: tr, e)
      end
  end.

(** [fetch_all_mutaties], consumed to the end: the trace of events and the
    exception that ended it, if any.  The first page is dereferenced
    unconditionally: [first.pagina] on [None] and [first.signalen] when the
    attribute is missing raise [AttributeError], [len(first.signalen)] on
    [None] raises [TypeError]. *)
Definition fetch_all_mutaties (client : Client) : list event * option exc :=
  match client 1 with
  | None => ([Request 1], Some AttributeError)
  | Some first =>
      match signalen_attr first with
      | NoSignalen => ([Request 1], Some AttributeError)
      | SignalenNone => ([Request 1], Some TypeError)
      | Signalen ss =>
          let (tr, e) := fetch_rest client (py_range 2 (totaal_paginas first + 1)) in
          (Request 1 :: map Yield ss ++ tr, e)
      end
  end.

Definition requests (tr : list event) : list Z :=
  flat_map (fun e => match e with Request p => [p] | Yield _ => [] end) tr.

Definition yields (tr : list event) : list Signaal :=
  flat_map (fun e => match e with Yield s => [s] | Request _ => [] end) tr.

(** The records of a page as the spec describes them: its signal list, or
    nothing when the payload is absent or has no signal list. *)
Definition page_records (client : Client) (page : Z) : list Signaal :=
  match client page with
  | Some p => match signalen_attr p with Signalen ss => ss | _ => [] end
  | None => []
  end.

End Fetch.

Module Writer.
Import Store.

(** [BasisProfielDomain]: the mapped API record; it carries no timestamp. *)
Record BasisProfielDomain := mkBasisProfielDomain {
  d_kvk_nummer : string;
  d_naam : option string;
  d_rechtsvorm : option string;
  d_totaal_werkzame_personen : option Z
}.

(** Modelled from the spec: [kvk_connect.db.basisprofiel_writer] (the module is
    not part of the sources; only its tests and callers are).  Section 4.3:
    a scoped resource whose [add] upserts in memory and stamps [last_updated]
    with "now"; every time the running count reaches [batch_size] the staged
    batch is committed and the counter resets to 0; [flush] commits a
    partial batch; leaving the scope commits on success and rolls back when
    an error propagated; [add] without an active session fails with
    "Session not initialized". *)
Definition _to_orm (d : BasisProfielDomain) (now : Z) : BasisProfielORM :=
  mkBasisProfielORM (d_kvk_nummer d) (d_naam d) (d_rechtsvorm d)
    (d_totaal_werkzame_personen d) now.

(** [session.merge]: the row with the same primary key is overwritten, or the
    row is appended when there is none. *)
Fixpoint merge (r : BasisProfielORM) (rows : list BasisProfielORM)
  : list BasisProfielORM :=
  match rows with
  | [] => [r]
  | x :: xs =>
      if String.eqb (kvk_nummer x) (kvk_nummer r) then r :: xs
      else x :: merge r xs
  end.

(** Committing a unit of work: every staged row is merged into the table. *)
Definition commit_rows (staged table : list BasisProfielORM)
  : list BasisProfielORM :=
  fold_left (fun t r => merge r t) staged table.

Record BasisProfielWriter := mkBasisProfielWriter {
  batch_size : nat;
  _session : option (list BasisProfielORM);
  _count : nat
}.

Definition new_writer (batch_size : nat) : BasisProfielWriter :=
  mkBasisProfielWriter batch_size None 0.

(** [BasisProfielWriter(engine)]: [batch_size] defaults to 1. *)
Definition default_writer : BasisProfielWriter := new_writer 1.

Inductive error :=
| SessionNotInitialized          (* RuntimeError("Session not initialized") *)
| Raised (tag : nat).            (* an exception raised by the caller's code *)

(** The writer together with the committed [basisprofiel] table. *)
Definition State : Type := BasisProfielWriter * list BasisProfielORM.

(** A state and error monad: an exception leaves the state as it was when
    it was raised. *)
Definition M (A : Type) : Type := State -> State * (error + A).

Definition ret {A} (a : A) : M A := fun s => (s, inr a).

Definition bind {A B} (m : M A) (k : A -> M B) : M B :=
  fun s => match m s with
           | (s', inl e) => (s', inl e)
           | (s', inr a) => k a s'
           end.

Notation "x <- m ;; k" := (bind m (fun x => k))
  (at level 61, m at next level, right associativity).
Notation "m ;;; k" := (bind m (fun _ => k)) (at level 61, right associativity).

Definition raise {A} (e : error) : M A := fun s => (s, inl e).

Definition set_session (w : BasisProfielWriter) (o : option (list BasisProfielORM))
  : BasisProfielWriter :=
  mkBasisProfielWriter (batch_size w) o (_count w).

(** [__enter__]: a fresh session with nothing staged. *)
Definition enter : M unit :=
  fun '(w, table) => ((set_session w (Some []), table), inr tt).

(** [add(record)] at clock time [now]. *)
Definition add (now : Z) (d : BasisProfielDomain) : M unit :=
  fun '(w, table) =>
    match _session w with
    | None => ((w, table), inl SessionNotInitialized)
    | Some staged =>
        let staged' := merge (_to_orm d now) staged in
        let c := S (_count w) in
        if Nat.eqb c (batch_size w) then
          ((mkBasisProfielWriter (batch_size w) (Some []) 0,
            commit_rows staged' table), inr tt)
        else
          ((mkBasisProfielWriter (batch_size w) (Some staged') c, table), inr tt)
    end.

(** [flush()]: commit the partial batch. *)
Definition flush : M unit :=
  fun '(w, table) =>
    match _session w with
    | None => ((w, table), inl SessionNotInitialized)
    | Some staged =>
        ((mkBasisProfielWriter (batch_size w) (Some []) 0,
          commit_rows staged table), inr tt)
    end.

(** [__exit__] without an exception: commit, close the session. *)
Definition exit_ok : M unit :=
  fun '(w, table) =>
    match _session w with
    | None => ((w, table), inr tt)
    | Some staged => ((set_session w None, commit_rows staged table), inr tt)
    end.

(** [__exit__] with an exception: roll back, close the session. *)
Definition exit_err : M unit :=
  fun '(w, table) => ((set_session w None, table), inr tt).

(** [with writer: body]: the exception of [body], if any, propagates after
    the rollback. *)
Definition with_writer (body : M unit) : M unit :=
  fun s =>
    match enter s with
    | (s1, inl e) => (s1, inl e)
    | (s1, inr _) =>
        match body s1 with
        | (s2, inr _) => exit_ok s2
        | (s2, inl e) => (fst (exit_err s2), inl e)
        end
    end.

(** [for record in records: writer.add(record)], each at its own clock time. *)
Fixpoint add_all (recs : list (Z * BasisProfielDomain)) : M unit :=
  match recs with
  | [] => ret tt
  | (now, d) :: rs => add now d ;;; add_all rs
  end.

Definition rows_for (k : string) (t : list BasisProfielORM) : list BasisProfielORM :=
  filter (fun r => String.eqb (kvk_nummer r) k) t.

Definition keys_unique (t : list BasisProfielORM) : Prop :=
  NoDup (map kvk_nummer t).

End Writer.

Module Dates.

(** [datetime.date]: year, month, day. *)
Record date := mkDate { year : Z; month : Z; day : Z }.

Definition is_leap (y : Z) : bool :=
  (Z.modulo y 4 =? 0) && (negb (Z.modulo y 100 =? 0) || (Z.modulo y 400 =? 0)).

Definition days_in_month (y m : Z) : Z :=
  if m =? 2 then (if is_leap y then 29 else 28)
  else if (m =? 4) || (m =? 6) || (m =? 9) || (m =? 11) then 30
  else 31.

(** The dates [datetime.date] accepts: years 1 to 9999. *)
Definition valid_date (y m d : Z) : bool :=
  (1 <=? y) && (y <=? 9999) && (1 <=? m) && (m <=? 12) &&
  (1 <=? d) && (d <=? days_in_month y m).

(** Python's [str.strip()] on the ASCII whitespace characters. *)
Definition is_ws (c : ascii) : bool :=
  existsb (Ascii.eqb c) [" "%char; "009"%char; "010"%char; "011"%char; "012"%char; "013"%char].

Fixpoint drop_ws (l : list ascii) : list ascii :=
  match l with
  | [] => []
  | c :: r => if is_ws c then drop_ws r else l
  end.

Definition strip (l : list ascii) : list ascii := rev (drop_ws (rev (drop_ws l))).

Definition digit_val (c : ascii) : option Z :=
  let n := Z.of_nat (nat_of_ascii c) in
  if (48 <=? n) && (n <=? 57) then Some (n - 48) else None.

(** A run of decimal digits, read as a number. *)
Fixpoint digits_from (acc : Z) (l : list ascii) : option Z :=
  match l with
  | [] => Some acc
  | c :: r =>
      match digit_val c with
      | Some v => digits_from (10 * acc + v) r
      | None => None
      end
  end.

Definition digits (l : list ascii) : option Z := digits_from 0 l.

(** Modelled from the spec: [kvk_connect.utils.tools.parse_kvk_datum] (the
    module is not part of the sources; its tests are).  Section 8 and the
    tests: [None], [""] and ["None"] give no value; a [DD-MM-YYYY] string is
    read as that date; an eight-digit [YYYYMMDD] string is read with an
    unknown ([00]) month or day defaulted to 1; anything that is not a
    valid calendar date gives no value. *)
Definition parse_ddmmyyyy (l : list ascii) : option date :=
  match l with
  | [d1; d2; s1; m1; m2; s2; y1; y2; y3; y4] =>
      if Ascii.eqb s1 "-" && Ascii.eqb s2 "-" then
        match digits [d1; d2], digits [m1; m2], digits [y1; y2; y3; y4] with
        | Some d, Some m, Some y =>
            if valid_date y m d then Some (mkDate y m d) else None
        | _, _, _ => None
        end
      else None
  | _ => None
  end.

Definition parse_yyyymmdd (l : list ascii) : option date :=
  match l with
  | [y1; y2; y3; y4; m1; m2; d1; d2] =>
      match digits [y1; y2; y3; y4], digits [m1; m2], digits [d1; d2] with
      | Some y, Some m, Some d =>
          let m' := if m =? 0 then 1 else m in
          let d' := if d =? 0 then 1 else d in
          if valid_date y m' d' then Some (mkDate y m' d') else None
      | _, _, _ => None
      end
  | _ => None
  end.

Definition parse_kvk_datum (value : option string) : option date :=
  match value with
  | None => None
  | Some v =>
      let s := string_of_list_ascii (strip (list_ascii_of_string v)) in
      if String.eqb s "" || String.eqb s "None" then None
      else
        let l := list_ascii_of_string s in
        match parse_ddmmyyyy l with
        | Some dt => Some dt
        | None => parse_yyyymmdd l
        end
  end.

Definition char_of_digit (x : Z) : ascii := ascii_of_nat (Z.to_nat (48 + x)).

(** The canonical renderings of a date in the two formats. *)
Definition format_ddmmyyyy (y m d : Z) : string :=
  string_of_list_ascii
    [char_of_digit (d / 10); char_of_digit (d mod 10); "-"%char;
     char_of_digit (m / 10); char_of_digit (m mod 10); "-"%char;
     char_of_digit (y / 1000); char_of_digit (y / 100 mod 10);
     char_of_digit (y / 10 mod 10); char_of_digit (y mod 10)].

Definition format_yyyymmdd (y m d : Z) : string :=
  string_of_list_ascii
    [char_of_digit (y / 1000); char_of_digit (y / 100 mod 10);
     char_of_digit (y / 10 mod 10); char_of_digit (y mod 10);
     char_of_digit (m / 10); char_of_digit (m mod 10);
     char_of_digit (d / 10); char_of_digit (d mod 10)].

End Dates.

Module ReaderMore.
Import Store Reader.

(** [BasisProfielReader.get_missing_kvk_nummers_count]:
    [select(func.count(func.distinct(kvknummer))) ... .limit(limit)], then
    [session.execute(stmt).scalar()] and [result or 0].  The aggregate
    yields one row; [LIMIT] applies to that row. *)
Definition get_missing_kvk_nummers_count (db : DB) (limit : nat) : nat :=
  let rows :=
    firstn limit
      [List.length (distinct (map kvknummer
         (filter (fun s => negb (has_profile db (kvknummer s))) (signalen db))))] in
  match rows with
  | [] => 0%nat             (* scalar() is None *)
  | c :: _ => c             (* c or 0 is c *)
  end.

(** [BasisProfielReader.kvk_nummer_exists]:
    [select(kvk_nummer).where(kvk_nummer == k).limit(1)], then
    [scalar() is not None]. *)
Definition kvk_nummer_exists (db : DB) (k : string) : bool :=
  match firstn 1 (map kvk_nummer
          (filter (fun b => String.eqb (kvk_nummer b) k) (basisprofielen db))) with
  | [] => false
  | _ :: _ => true
  end.

(** A key that is signalled and has no base profile. *)
Definition missing_key (db : DB) (k : string) : Prop :=
  (exists s, In s (signalen db) /\ kvknummer s = k) /\
  ~ (exists b, In b (basisprofielen db) /\ kvk_nummer b = k).

End ReaderMore.

Module BasisprofielApp.
Import Store Writer.

(** The parts of the app that read the store: [reader.kvk_nummer_exists]
    on the committed [basisprofiel] table. *)
Definition table_db (table : list BasisProfielORM) : DB := mkDB [] table.

(** [process_kvk_nummers] (apps/basisprofiel/main.py): for every KvK
    number, [KVKRecordService(kvk_client).get_basisprofiel] (here
    [get_basisprofiel]); a record found is added to the writer and counted.
    [now] is the writer's clock. *)
Fixpoint process_kvk_nummers_from (get_basisprofiel : string -> option BasisProfielDomain)
    (now : Z) (count : nat) (kvk_nummers : list string) : M nat :=
  match kvk_nummers with
  | [] => ret count
  | k :: ks =>
      match get_basisprofiel k with
      | Some rec => add now rec ;;; process_kvk_nummers_from get_basisprofiel now (S count) ks
      | None => process_kvk_nummers_from get_basisprofiel now count ks
      end
  end.

Definition process_kvk_nummers get_basisprofiel now kvk_nummers : M nat :=
  process_kvk_nummers_from get_basisprofiel now 0 kvk_nummers.

(** The counters of [process_csv]; [fetched] records the KvK numbers passed
    to [get_basisprofiel], in call order (the upstream calls made). *)
Record CsvCounters := mkCsvCounters {
  count_processed : nat;
  count_skipped : nat;
  count_total : nat;
  fetched : list string
}.

(** One value of a CSV row: [count_total += 1]; skip when
    [reader.kvk_nummer_exists]; otherwise fetch, and add when found. *)
Definition process_csv_value (get_basisprofiel : string -> option BasisProfielDomain)
    (now : Z) (c : CsvCounters) (kvk_nummer : string) : M CsvCounters :=
  fun '(w, table) =>
    let total := S (count_total c) in
    if ReaderMore.kvk_nummer_exists (table_db table) kvk_nummer then
      ((w, table), inr (mkCsvCounters (count_processed c) (S (count_skipped c)) total
                                      (fetched c)))
    else
      let c' := mkCsvCounters (count_processed c) (count_skipped c) total
                              (fetched c ++ [kvk_nummer]) in
      match get_basisprofiel kvk_nummer with
      | Some rec =>
          (add now rec ;;;
           ret (mkCsvCounters (S (count_processed c')) (count_skipped c')
                              (count_total c') (fetched c'))) (w, table)
      | None => ((w, table), inr c')
      end.

Section Csv.
(** Python's [str.strip()] on a CSV value (a value is held as its UTF-8
    bytes); it is a parameter, so what is proved holds for the real one. *)
Variable py_strip : string -> string.

(** [for kvk_nummer in (value.strip() for value in row if value.strip())]. *)
Fixpoint process_csv_row get_basisprofiel now (c : CsvCounters) (row : list string)
  : M CsvCounters :=
  match row with
  | [] => ret c
  | value :: vs =>
      if String.eqb (py_strip value) "" then process_csv_row get_basisprofiel now c vs
      else
        bind (process_csv_value get_basisprofiel now c (py_strip value))
             (fun c' => process_csv_row get_basisprofiel now c' vs)
  end.

Fixpoint process_csv_rows get_basisprofiel now (c : CsvCounters) (rows : list (list string))
  : M CsvCounters :=
  match rows with
  | [] => ret c
  | row :: rs =>
      bind (process_csv_row get_basisprofiel now c row)
           (fun c' => process_csv_rows get_basisprofiel now c' rs)
  end.

(** The exceptions of [open(csv_path)] and of iterating [csv.reader(file)]. *)
Inductive csv_error :=
| FileNotFoundError            (* [open] of a missing path *)
| ReadError.                   (* a decoding or [csv.Error] while reading *)

(** Such an exception leaves [process_csv] through [except ...: raise]. *)
Definition csv_exc (e : csv_error) : error :=
  Raised (match e with FileNotFoundError => 0 | ReadError => 1 end).

(** What reading the file gives: the rows [csv.reader] produces, then the
    exception that ends the reading, if any (a missing file: no row, then
    [FileNotFoundError]). *)
Definition csv_file : Type := list (list string) * option csv_error.

(** [process_csv]: returns [count_processed], with the counters kept for
    the statements. *)
Definition process_csv get_basisprofiel now (file : csv_file) : M CsvCounters :=
  bind (process_csv_rows get_basisprofiel now (mkCsvCounters 0 0 0 []) (fst file))
       (fun c => match snd file with
                 | None => ret c
                 | Some e => raise (csv_exc e)
                 end).

End Csv.

End BasisprofielApp.

Module Sync.
Import Store TimeSelector AutoWindow Fetch.

(** The errors [run_sync] lets escape: the [ValueError] of
    [resolve_time_window_manual] and the [AttributeError] of
    [fetch_all_mutaties]. *)
Inductive sync_error :=
| ValueError
| FetchError (e : exc).

(** [resolve_time_window_manual] (apps/mutatie-reader/main.py) on the
    instants [parse_iso_utc] returned for [--from] and [--to]. *)
Definition resolve_time_window_manual (sf st : Z) : sync_error + (Z * Z) :=
  if st <? sf then inl ValueError else inr (sf, st).

(** The loop of [run_sync] over the windows: every signal the generator
    yields is passed to [writer.add]; an exception ends the loop and leaves
    the [with] block. *)
Fixpoint sync_windows (client : Z -> Z -> Client) (ranges : list (Z * Z))
  : list Signaal * option exc :=
  match ranges with
  | [] => ([], None)
  | (wf, wt) :: rs =>
      let (tr, e) := fetch_all_mutaties (client wf wt) in
      match e with
      | Some x => (yields tr, Some x)
      | None =>
          let (rest, e') := sync_windows client rs in (yields tr ++ rest, e')
      end
  end.

(** What one run does: whether the [SignaalWriter] scope was entered, the
    signals passed to [writer.add] in order, and the escaping error. *)
Record SyncResult := mkSyncResult {
  writer_opened : bool;
  added : list Signaal;
  raised : option sync_error
}.

(** [ranges = get_timeselector(from_time, to_time)]; no ranges: return
    before opening the writer. *)
Definition sync_range (client : Z -> Z -> Client) (from_time to_time : Z) : SyncResult :=
  match get_timeselector from_time to_time with
  | [] => mkSyncResult false [] None
  | ranges =>
      let (a, e) := sync_windows client ranges in
      mkSyncResult true a (option_map FetchError e)
  end.

Inductive mode :=
| Auto
| Manual (sf st : Z).

(** [run_sync]: [--auto] reads the window from the signal store, [--manual]
    from the parsed [--from] and [--to]. *)
Definition run_sync (client : Z -> Z -> Client) (now : Z) (signal_timestamps : list Z)
    (m : mode) : SyncResult :=
  match m with
  | Auto =>
      let '(from_time, to_time) := resolve_auto_on_store now signal_timestamps in
      sync_range client from_time to_time
  | Manual sf st =>
      match resolve_time_window_manual sf st with
      | inl e => mkSyncResult false [] (Some e)
      | inr (from_time, to_time) => sync_range client from_time to_time
      end
  end.

End Sync.

(** ** Proofs *)

Module TimeSelectorFacts.
Import TimeSelector.

Example get_timeselector_days :
  get_timeselector_span 7 0 9 = [(0, 7); (7, 9)].
Proof. reflexivity. Qed.

Example get_timeselector_equal : get_timeselector 5 5 = [].
Proof. reflexivity. Qed.

Example get_timeselector_inverted : get_timeselector 12 10 = [].
Proof. reflexivity. Qed.

Lemma windows_from_stop span t fuel c :
  t <= c -> windows_from span t fuel c = [].
Proof.
  intros Hc. destruct fuel as [|f]; simpl; [reflexivity|].
  destruct (Z.ltb_spec c t); [lia | reflexivity].
Qed.

Lemma windows_from_correct span t (Hspan : 0 < span) :
  forall fuel c, c <= t -> t - c <= Z.of_nat fuel ->
  tiles c t (windows_from span t fuel c) /\
  spans_ok span (windows_from span t fuel c).
Proof.
  induction fuel as [|f IH]; intros c Hct Hfuel.
  - simpl. split; [lia | exact I].
  - simpl. destruct (Z.ltb_spec c t) as [Hlt|Hge].
    + set (e := Z.min (c + span) t).
      assert (He1 : c < e) by (unfold e; lia).
      assert (He2 : e <= t) by (unfold e; lia).
      destruct (IH e He2 ltac:(lia)) as [Ht Hs].
      split; [simpl; auto|].
      simpl. split; [|exact Hs].
      destruct (Z.ltb_spec e t) as [Het|Het].
      * destruct f as [|f']; [simpl in Hfuel; lia|].
        simpl. destruct (Z.ltb_spec e t); [|lia]. unfold e in *; lia.
      * rewrite windows_from_stop by lia. unfold e; lia.
    + simpl. split; [lia | exact I].
Qed.

Lemma tiles_cover : forall ws c t x,
  tiles c t ws -> (c <= x < t <-> Exists (in_window x) ws).
Proof.
  induction ws as [|[a b] r IH]; intros c t x H; simpl in H.
  - subst. split; [lia | intros Hx; inversion Hx].
  - destruct H as [-> [Hab Hr]].
    assert (Hbt : b <= t).
    { clear IH. revert b Hab Hr. induction r as [|[a' b'] r' IHr];
        intros b Hab Hr; simpl in Hr; [lia|].
      destruct Hr as [-> [Hab' Hr']]. specialize (IHr b' ltac:(lia) Hr'). lia. }
    rewrite Exists_cons. unfold in_window at 1; simpl.
    rewrite <- (IH b t x Hr). lia.
Qed.

(** The windows are pairwise disjoint: each one lies entirely before the
    ones that follow it. *)
Lemma tiles_ordered : forall ws c t,
  tiles c t ws ->
  forall i j wi wj, (i < j)%nat -> nth_error ws i = Some wi ->
  nth_error ws j = Some wj -> snd wi <= fst wj.
Proof.
  induction ws as [|[a b] r IH]; intros c t H i j wi wj Hij Hi Hj;
    [destruct i; discriminate|].
  simpl in H. destruct H as [-> [Hab Hr]].
  destruct i as [|i']; destruct j as [|j']; try lia.
  - simpl in Hi. injection Hi as <-. simpl in Hj. simpl.
    assert (Hstart : forall k w, nth_error r k = Some w -> b <= fst w).
    { clear -Hr. revert b Hr. induction r as [|[a' b'] r' IHr]; intros b Hr k w Hk;
        [destruct k; discriminate|].
      simpl in Hr. destruct Hr as [-> [Hab' Hr']].
      destruct k; simpl in Hk; [injection Hk as <-; simpl; lia|].
      specialize (IHr b' Hr' k w Hk). lia. }
    exact (Hstart _ _ Hj).
  - simpl in Hi, Hj. apply (IH b t Hr i' j' wi wj); auto; lia.
Qed.

(** C1: for every span [S > 0], when [from < to] the partitioner returns a
    non-empty, earliest-first list of windows that are contiguous and
    non-overlapping, that together cover exactly [from, to), and all have
    length [S] except the last, which has length at most [S]; when
    [to <= from] it returns the empty list. *)
Theorem get_timeselector_partition (span from_time to_time : Z) :
  0 < span ->
  (from_time < to_time ->
     let ws := get_timeselector_span span from_time to_time in
     ws <> [] /\
     tiles from_time to_time ws /\
     (forall x, from_time <= x < to_time <-> Exists (in_window x) ws) /\
     (forall i j wi wj, (i < j)%nat -> nth_error ws i = Some wi ->
        nth_error ws j = Some wj -> snd wi <= fst wj) /\
     spans_ok span ws) /\
  (to_time <= from_time -> get_timeselector_span span from_time to_time = []).
Proof.
  intros Hspan. split.
  - intros Hlt ws.
    destruct (windows_from_correct span to_time Hspan
                (Z.to_nat (to_time - from_time)) from_time ltac:(lia) ltac:(lia))
      as [Ht Hs].
    fold (get_timeselector_span span from_time to_time) in Ht, Hs. fold ws in Ht, Hs.
    split; [|split; [exact Ht|split; [|split; [|exact Hs]]]].
    + intros E. rewrite E in Ht. simpl in Ht. lia.
    + intros x. exact (tiles_cover ws from_time to_time x Ht).
    + exact (tiles_ordered ws from_time to_time Ht).
  - intros Hle. unfold get_timeselector_span.
    replace (Z.to_nat (to_time - from_time)) with O by lia. reflexivity.
Qed.

Lemma get_timeselector_partition_witness :
  0 < TimeSelector.MAX_SPAN /\
  (TimeSelector.get_timeselector 0 (9 * 86400) <> []).
Proof.
  split; [unfold TimeSelector.MAX_SPAN; lia|].
  destruct (get_timeselector_partition TimeSelector.MAX_SPAN 0 (9 * 86400)
              ltac:(unfold TimeSelector.MAX_SPAN; lia)) as [H _].
  exact (proj1 (H ltac:(lia))).
Defined.

End TimeSelectorFacts.

Module AutoWindowFacts.
Import AutoWindow.

Lemma fold_max_ge : forall ts m, m <= fold_left Z.max ts m /\
  (forall t, In t ts -> t <= fold_left Z.max ts m).
Proof.
  induction ts as [|t ts IH]; intros m; simpl.
  - split; [lia | tauto].
  - destruct (IH (Z.max m t)) as [H1 H2]. split; [lia|].
    intros x [<-|Hx]; [lia | auto].
Qed.

Lemma fold_max_in : forall ts m, fold_left Z.max ts m = m \/ In (fold_left Z.max ts m) ts.
Proof.
  induction ts as [|t ts IH]; intros m; simpl; [auto|].
  destruct (IH (Z.max m t)) as [E|E]; [|auto].
  rewrite E. destruct (Z.max_spec m t) as [[_ ->]|[_ ->]]; auto.
Qed.

(** C3 (counterexample): a persisted signal ten days old gives a window that
    starts ten days back, not [max(last, now - 1 day)]; with no persisted
    signal the window starts at [now - 1 day - 1 minute]. *)
Lemma resolve_time_window_auto_not_max :
  fst (resolve_time_window_auto (10 * DAY) (Some 0)) <> Z.max 0 (10 * DAY - DAY) /\
  fst (resolve_time_window_auto (10 * DAY) (Some 0)) < 10 * DAY - DAY /\
  fst (resolve_time_window_auto (10 * DAY) None) < 10 * DAY - DAY.
Proof. vm_compute. repeat split; discriminate. Qed.

(** C3 (as amended): [to = now - 1 minute]; [from] is the newest persisted
    signal timestamp when there is one (no lower bound), otherwise
    [to - 1 day]. *)
Theorem resolve_time_window_auto_spec (now : Z) (signal_timestamps : list Z) :
  let '(from_time, to_time) := resolve_auto_on_store now signal_timestamps in
  to_time = now - MINUTE /\
  (signal_timestamps = [] -> from_time = to_time - DAY) /\
  (signal_timestamps <> [] ->
     In from_time signal_timestamps /\
     (forall t, In t signal_timestamps -> t <= from_time)).
Proof.
  unfold resolve_auto_on_store, resolve_time_window_auto, get_last_timestamp.
  destruct signal_timestamps as [|t ts]; simpl.
  - split; [reflexivity|]. split; [reflexivity|]. intros []; reflexivity.
  - split; [reflexivity|]. split; [discriminate|]. intros _.
    destruct (fold_max_ge ts t) as [H1 H2]. split.
    + destruct (fold_max_in ts t) as [E|E]; [left; auto|right; exact E].
    + intros x [<-|Hx]; [exact H1 | auto].
Qed.

End AutoWindowFacts.

Module ReaderFacts.
Import Store Reader.

Lemma existsb_eqb_In (x : string) (seen : list string) :
  existsb (String.eqb x) seen = true <-> In x seen.
Proof.
  rewrite existsb_exists. split.
  - intros [y [Hy E]]. apply String.eqb_eq in E. subst; exact Hy.
  - intros H. exists x. split; [exact H | apply String.eqb_refl].
Qed.

Lemma distinct_seen_In : forall xs seen x,
  In x (distinct_seen seen xs) <-> In x xs /\ ~ In x seen.
Proof.
  induction xs as [|y r IH]; intros seen x; simpl; [tauto|].
  destruct (existsb (String.eqb y) seen) eqn:E.
  - apply existsb_eqb_In in E. rewrite IH.
    split; [tauto|]. intros [[<-|H] Hn]; [contradiction | tauto].
  - assert (Hy : ~ In y seen) by (rewrite <- existsb_eqb_In; congruence).
    simpl. rewrite IH. simpl.
    split.
    + intros [<-|[Hr Hn]]; [tauto | split; tauto].
    + intros [[<-|Hr] Hn]; [tauto|].
      destruct (String.eqb_spec y x); [left; auto | right; tauto].
Qed.

Lemma distinct_seen_NoDup : forall xs seen, NoDup (distinct_seen seen xs).
Proof.
  induction xs as [|y r IH]; intros seen; simpl; [constructor|].
  destruct (existsb (String.eqb y) seen); [apply IH|].
  constructor; [|apply IH].
  rewrite distinct_seen_In. simpl. tauto.
Qed.

Lemma distinct_In xs x : In x (distinct xs) <-> In x xs.
Proof. unfold distinct. rewrite distinct_seen_In. simpl. tauto. Qed.

Lemma distinct_NoDup xs : NoDup (distinct xs).
Proof. apply distinct_seen_NoDup. Qed.

Lemma firstn_In_l {A} n (l : list A) x : In x (firstn n l) -> In x l.
Proof.
  intros H. rewrite <- (firstn_skipn n l). apply in_or_app. left; exact H.
Qed.

Lemma firstn_NoDup {A} n (l : list A) : NoDup l -> NoDup (firstn n l).
Proof.
  intros H. rewrite <- (firstn_skipn n l) in H.
  exact (NoDup_app_remove_r _ _ H).
Qed.

Lemma remove_nth_incl {A} : forall i (l : list A) x, In x (remove_nth i l) -> In x l.
Proof.
  induction i as [|i IH]; intros [|y l] x H; simpl in *; auto.
  destruct H as [<-|H]; auto.
Qed.

Lemma sample_with_incl {A} : forall k rng (pool : list A) x,
  In x (sample_with rng pool k) -> In x pool.
Proof.
  induction k as [|k IH]; intros rng pool x H; simpl in H; [contradiction|].
  destruct (nth_error pool _) as [y|] eqn:E; [|contradiction].
  destruct H as [<-|H].
  - eapply nth_error_In; exact E.
  - apply IH in H. eapply remove_nth_incl; exact H.
Qed.

(** Every outcome of [get_missing_kvk_nummers] is drawn from the first
    [limit] keys of the query's own order. *)
Lemma get_missing_from_prefix rng db limit x :
  In x (get_missing_kvk_nummers rng db limit) -> In x (missing_query db limit).
Proof. apply sample_with_incl. Qed.

Definition sig (id k : string) (v : option string) (t : Z) : Signaal :=
  mkSignaal id k v t "UPDATE"%string.

Definition profile (k : string) (lu : Z) : BasisProfielORM :=
  mkBasisProfielORM k (Some "Test Company"%string) None None lu.

(** Two signalled KvK numbers, neither with a base profile. *)
Definition db_two_missing : DB :=
  mkDB [sig "signal-1"%string "10000001"%string None 1; sig "signal-2"%string "10000002"%string None 2] [].

(** C4 (code defect): with limit 1, whatever the random source, the result
    is the first key in query order; "10000002" is missing too but can
    never be returned. *)
Theorem get_missing_kvk_nummers_first_n : forall rng,
  get_missing_kvk_nummers rng db_two_missing 1 = ["10000001"%string] /\
  negb (has_profile db_two_missing "10000002"%string) = true.
Proof.
  intros rng. split; [|reflexivity].
  reflexivity.
Qed.

Lemma outdated_rows_In db x :
  In x (flat_map (fun s =>
          map (fun _ => kvknummer s)
            (filter (fun b =>
                String.eqb (kvknummer s) (kvk_nummer b) &&
                (last_updated b <? timestamp s) &&
                match vestigingsnummer s with None => true | Some _ => false end)
              (basisprofielen db)))
          (signalen db)) <-> outdated_key db x.
Proof.
  rewrite in_flat_map. unfold outdated_key. split.
  - intros [s [Hs Hx]]. apply in_map_iff in Hx. destruct Hx as [b [<- Hb]].
    apply filter_In in Hb. destruct Hb as [Hb Hc].
    apply andb_true_iff in Hc. destruct Hc as [Hc Hv].
    apply andb_true_iff in Hc. destruct Hc as [Hk Ht].
    apply String.eqb_eq in Hk. apply Z.ltb_lt in Ht.
    exists s, b. repeat split; auto.
    destruct (vestigingsnummer s); [discriminate | reflexivity].
  - intros [s [b [Hs [Hb [Hk [Hb' [Ht Hv]]]]]]].
    exists s. split; [exact Hs|]. apply in_map_iff. exists b.
    split; [exact Hk|]. apply filter_In. split; [exact Hb|].
    rewrite Hk, <- Hb', String.eqb_refl, Hv. simpl.
    apply Z.ltb_lt in Ht. rewrite Ht. reflexivity.
Qed.

(** Two stale base profiles, each with a newer base-level signal. *)
Definition db_two_outdated : DB :=
  mkDB [sig "signal-1"%string "10000001"%string None 5; sig "signal-2"%string "10000002"%string None 5]
       [profile "10000001"%string 0; profile "10000002"%string 0].

(** C7 (counterexample): with [limit = 1] the outdated key "10000002" is not
    returned. *)
Lemma get_outdated_truncated :
  outdated_key db_two_outdated "10000002"%string /\
  ~ In "10000002"%string (get_outdated_kvk_nummers db_two_outdated 1).
Proof.
  split.
  - exists (sig "signal-2" "10000002" None 5), (profile "10000002" 0).
    simpl. repeat split; auto; lia.
  - vm_compute. intros [H|[]]. discriminate.
Qed.

(** C7 (as amended): the result is duplicate-free, has at most [limit]
    keys, each of which has a base profile and a signal without
    vestigingsnummer newer than its [last_updated]; when there are at most
    [limit] such keys, all of them are returned. *)
Theorem get_outdated_kvk_nummers_spec (db : DB) (limit : nat) :
  let res := get_outdated_kvk_nummers db limit in
  NoDup res /\ (List.length res <= limit)%nat /\
  (forall k, In k res -> outdated_key db k) /\
  (forall K : list string, (forall k, outdated_key db k -> In k K) ->
     (List.length K <= limit)%nat ->
     forall k, outdated_key db k -> In k res).
Proof.
  cbv zeta. unfold get_outdated_kvk_nummers.
  set (D := distinct _).
  assert (HD : forall k, In k D <-> outdated_key db k)
    by (intros k; unfold D; rewrite distinct_In; apply outdated_rows_In).
  split; [apply firstn_NoDup, distinct_NoDup|].
  split; [apply firstn_le_length|].
  split.
  - intros k Hk. apply HD. eapply firstn_In_l; exact Hk.
  - intros K HK Hlen k Hk.
    assert (Hinc : incl D K) by (intros x Hx; apply HK, HD, Hx).
    pose proof (NoDup_incl_length (distinct_NoDup _) Hinc) as HDK.
    fold D in HDK.
    rewrite firstn_all2 by lia. apply HD, Hk.
Qed.

End ReaderFacts.

Module FetchFacts.
Import Store Fetch.

Lemma requests_app t1 t2 : requests (t1 ++ t2) = requests t1 ++ requests t2.
Proof. apply flat_map_app. Qed.

Lemma yields_app t1 t2 : yields (t1 ++ t2) = yields t1 ++ yields t2.
Proof. apply flat_map_app. Qed.

Lemma yields_map_Yield ss : yields (map Yield ss) = ss.
Proof. induction ss as [|s ss IH]; simpl; congruence. Qed.

Lemma requests_map_Yield ss : requests (map Yield ss) = [].
Proof. induction ss as [|s ss IH]; simpl; congruence. Qed.

Lemma py_range_first (n : Z) :
  1 :: py_range 2 (n + 1) = py_range 1 (Z.max n 1 + 1).
Proof.
  unfold py_range.
  replace (Z.to_nat (Z.max n 1 + 1 - 1)) with (S (Z.to_nat (n + 1 - 2))) by lia.
  reflexivity.
Qed.

(** No page among [pages] comes back with [signalen = None]. *)
Definition later_ok (client : Client) (pages : list Z) : Prop :=
  forall p, In p pages -> forall nxt, client p = Some nxt -> signalen_attr nxt <> SignalenNone.

Lemma later_ok_cons client p ps :
  later_ok client (p :: ps) <->
  (forall nxt, client p = Some nxt -> signalen_attr nxt <> SignalenNone) /\ later_ok client ps.
Proof.
  unfold later_ok. split.
  - intros H. split; [apply H; left; reflexivity | intros q Hq; apply H; right; exact Hq].
  - intros [H1 H2] q [<-|Hq]; [exact H1 | apply H2, Hq].
Qed.

Lemma fetch_rest_ok client : forall pages, later_ok client pages ->
  snd (fetch_rest client pages) = None /\
  requests (fst (fetch_rest client pages)) = pages /\
  yields (fst (fetch_rest client pages)) = flat_map (page_records client) pages.
Proof.
  induction pages as [|p ps IH]; intros H; [repeat split|].
  apply later_ok_cons in H. destruct H as [Hp Hps].
  specialize (IH Hps). simpl. unfold page_records at 1.
  destruct (fetch_rest client ps) as [tr e]. simpl in IH. destruct IH as [He [Hr Hy]].
  destruct (client p) as [nxt|]; [destruct (signalen_attr nxt) as [| |ss] eqn:Hs|].
  - simpl. repeat split; [exact He | unfold requests in *; simpl; congruence | exact Hy].
  - exfalso. exact (Hp nxt eq_refl Hs).
  - simpl. split; [exact He|].
    rewrite requests_app, yields_app, requests_map_Yield, yields_map_Yield.
    split; [unfold requests in *; simpl; congruence | congruence].
  - simpl. repeat split; [exact He | unfold requests in *; simpl; congruence | exact Hy].
Qed.


Lemma fetch_rest_stops client p nxt post : forall pre,
  later_ok client pre -> client p = Some nxt -> signalen_attr nxt = SignalenNone ->
  fetch_rest client (pre ++ p :: post) =
  (fst (fetch_rest client pre) ++ [Request p], Some TypeError).
Proof.
  intros pre Hpre Hp Hs. induction pre as [|q qs IH].
  - simpl. rewrite Hp, Hs. reflexivity.
  - apply later_ok_cons in Hpre. destruct Hpre as [Hq Hqs].
    simpl. rewrite (IH Hqs).
    destruct (fetch_rest client qs) as [tr e]. simpl.
    destruct (client q) as [m|]; [destruct (signalen_attr m) as [| |ss] eqn:Hm|];
      simpl; try reflexivity.
    + exfalso. exact (Hq m eq_refl Hm).
    + rewrite <- app_assoc. reflexivity.
Qed.

Definition s_a : Signaal := mkSignaal "a" "10000001" None 1 "UPDATE".
Definition s_c : Signaal := mkSignaal "c" "10000003" None 3 "UPDATE".

(** Three pages: page 2 is an object whose [signalen] is [None]. *)
Definition client_none_page : Client := fun page =>
  if Z.eqb page 1 then Some (mkMutatiesAPI 1 2 3 (Signalen [s_a]))
  else if Z.eqb page 2 then Some (mkMutatiesAPI 2 2 3 SignalenNone)
  else Some (mkMutatiesAPI 3 2 3 (Signalen [s_c])).

(** C8: a page after the first whose payload carries [signalen = None] has no
    signal list, yet the guard [nxt is not None and hasattr(nxt, "signalen")]
    lets it through and [for s in nxt.signalen] raises [TypeError]: the
    window ends there and page 3 is never requested nor its record yielded. *)
Theorem fetch_all_mutaties_none_page_aborts :
  fetch_all_mutaties client_none_page =
  ([Request 1; Yield s_a; Request 2], Some TypeError).
Proof. reflexivity. Qed.

(** Three pages: page 2 comes back as [None]. *)
Definition client_gap : Client := fun page =>
  if Z.eqb page 1 then Some (mkMutatiesAPI 1 2 3 (Signalen [s_a]))
  else if Z.eqb page 3 then Some (mkMutatiesAPI 3 2 3 (Signalen [s_c]))
  else None.

Example client_gap_trace :
  fetch_all_mutaties client_gap =
  ([Request 1; Yield s_a; Request 2; Request 3; Yield s_c], None).
Proof. reflexivity. Qed.

(** When the first page has a signal list and no later page carries
    [signalen = None], the loop requests pages [1, 2, ..., N] in this order
    ([N] = total page count of page 1, at least one request), raises nothing,
    and yields the records of page 1 followed by those of pages [2..N] in page
    order, a [None] page or a page without [signalen] adding nothing. *)
Theorem fetch_all_mutaties_pages (client : Client) (first : MutatiesAPI)
    (ss : list Signaal) :
  client 1 = Some first -> signalen_attr first = Signalen ss ->
  later_ok client (py_range 2 (totaal_paginas first + 1)) ->
  let N := totaal_paginas first in
  snd (fetch_all_mutaties client) = None /\
  requests (fst (fetch_all_mutaties client)) = py_range 1 (Z.max N 1 + 1) /\
  yields (fst (fetch_all_mutaties client)) =
    ss ++ flat_map (page_records client) (py_range 2 (N + 1)).
Proof.
  intros H1 Hss Hok N. unfold fetch_all_mutaties. rewrite H1, Hss.
  destruct (fetch_rest_ok client _ Hok) as [He [Hr Hy]]. subst N.
  destruct (fetch_rest client (py_range 2 (totaal_paginas first + 1))) as [tr e]. simpl in *.
  split; [exact He|]. split.
  - unfold requests. simpl. fold requests.
    rewrite requests_app, requests_map_Yield, Hr. apply py_range_first.
  - unfold yields. simpl. fold yields.
    rewrite yields_app, yields_map_Yield, Hy. reflexivity.
Qed.

Lemma fetch_all_mutaties_pages_witness :
  client_gap 1 = Some (mkMutatiesAPI 1 2 3 (Signalen [s_a])) /\
  later_ok client_gap (py_range 2 (3 + 1)) /\
  requests (fst (fetch_all_mutaties client_gap)) = [1; 2; 3] /\
  yields (fst (fetch_all_mutaties client_gap)) = [s_a; s_c].
Proof.
  assert (Hok : later_ok client_gap (py_range 2 (3 + 1))).
  { intros q Hq nxt Hn. simpl in Hq.
    destruct Hq as [<-|[<-|[]]]; simpl in Hn; [discriminate | injection Hn as <-; discriminate]. }
  destruct (fetch_all_mutaties_pages client_gap (mkMutatiesAPI 1 2 3 (Signalen [s_a])) [s_a]
              eq_refl eq_refl Hok) as [_ [Hr Hy]].
  split; [reflexivity|]. split; [exact Hok|]. split.
  - rewrite Hr. reflexivity.
  - rewrite Hy. reflexivity.
Defined.

(** A page after the first whose [signalen] is [None] ends the loop with
    [TypeError]: the pages before it are requested and yielded as usual, the
    pages after it are never requested. *)
Theorem fetch_all_mutaties_type_error (client : Client) (first : MutatiesAPI)
    (ss : list Signaal) (pre post : list Z) (p : Z) (nxt : MutatiesAPI) :
  client 1 = Some first -> signalen_attr first = Signalen ss ->
  py_range 2 (totaal_paginas first + 1) = pre ++ p :: post ->
  later_ok client pre -> client p = Some nxt -> signalen_attr nxt = SignalenNone ->
  snd (fetch_all_mutaties client) = Some TypeError /\
  requests (fst (fetch_all_mutaties client)) = 1 :: pre ++ [p] /\
  yields (fst (fetch_all_mutaties client)) = ss ++ flat_map (page_records client) pre.
Proof.
  intros H1 Hss Hr Hpre Hp Hn. unfold fetch_all_mutaties. rewrite H1, Hss, Hr.
  rewrite (fetch_rest_stops client p nxt post pre Hpre Hp Hn).
  destruct (fetch_rest_ok client pre Hpre) as [_ [Rq Yq]].
  simpl. split; [reflexivity|]. split.
  - unfold requests. simpl. fold requests.
    rewrite !requests_app, requests_map_Yield, Rq. reflexivity.
  - unfold yields. simpl. fold yields.
    rewrite !yields_app, yields_map_Yield, Yq. simpl. rewrite app_nil_r. reflexivity.
Qed.

Lemma fetch_all_mutaties_type_error_witness :
  client_none_page 1 = Some (mkMutatiesAPI 1 2 3 (Signalen [s_a])) /\
  py_range 2 (3 + 1) = [] ++ 2 :: [3] /\
  snd (fetch_all_mutaties client_none_page) = Some TypeError /\
  requests (fst (fetch_all_mutaties client_none_page)) = 1 :: [] ++ [2] /\
  yields (fst (fetch_all_mutaties client_none_page)) =
    [s_a] ++ flat_map (page_records client_none_page) [].
Proof.
  split; [reflexivity|]. split; [reflexivity|].
  apply (fetch_all_mutaties_type_error client_none_page (mkMutatiesAPI 1 2 3 (Signalen [s_a]))
           [s_a] [] [3] 2 (mkMutatiesAPI 2 2 3 SignalenNone));
    [reflexivity | reflexivity | reflexivity | intros q [] | reflexivity | reflexivity].
Defined.

End FetchFacts.

Module WriterFacts.
Import Store Writer.

Lemma rows_for_absent k t : ~ In k (map kvk_nummer t) -> rows_for k t = [].
Proof.
  induction t as [|y ys IH]; intros Hn; simpl; [reflexivity|].
  destruct (String.eqb_spec (kvk_nummer y) k) as [E|E].
  - exfalso. apply Hn. left. exact E.
  - apply IH. intros H. apply Hn. right. exact H.
Qed.

Lemma merge_keys_In r : forall t x,
  In x (map kvk_nummer (merge r t)) <-> x = kvk_nummer r \/ In x (map kvk_nummer t).
Proof.
  induction t as [|y ys IH]; intros x; simpl.
  - split; intros [H|[]]; left; auto.
  - destruct (String.eqb_spec (kvk_nummer y) (kvk_nummer r)) as [E|E]; simpl.
    + rewrite E. split; intros [H|H]; auto.
    + rewrite IH. split; intros H; [destruct H as [H|[H|H]]|destruct H as [H|[H|H]]]; auto.
Qed.

Lemma merge_unique r : forall t, keys_unique t -> keys_unique (merge r t).
Proof.
  unfold keys_unique. induction t as [|y ys IH]; intros Hu; simpl.
  - constructor; [intros []|constructor].
  - inversion Hu as [|? ? Hn Hu']; subst.
    destruct (String.eqb_spec (kvk_nummer y) (kvk_nummer r)) as [E|E]; simpl.
    + rewrite <- E. constructor; assumption.
    + constructor; [|apply IH, Hu'].
      rewrite merge_keys_In. intros [H|H]; [apply E, H | apply Hn, H].
Qed.

Lemma rows_for_merge_same r : forall t,
  keys_unique t -> rows_for (kvk_nummer r) (merge r t) = [r].
Proof.
  unfold keys_unique. induction t as [|y ys IH]; intros Hu; simpl.
  - rewrite String.eqb_refl. reflexivity.
  - inversion Hu as [|? ? Hn Hu']; subst.
    destruct (String.eqb_spec (kvk_nummer y) (kvk_nummer r)) as [E|E]; simpl.
    + rewrite String.eqb_refl. f_equal. apply rows_for_absent. rewrite <- E. exact Hn.
    + destruct (String.eqb_spec (kvk_nummer y) (kvk_nummer r)); [contradiction|].
      apply IH, Hu'.
Qed.

Lemma rows_for_merge_other r k : forall t,
  kvk_nummer r <> k -> rows_for k (merge r t) = rows_for k t.
Proof.
  induction t as [|y ys IH]; intros Hk; simpl.
  - destruct (String.eqb_spec (kvk_nummer r) k); [contradiction|reflexivity].
  - destruct (String.eqb_spec (kvk_nummer y) (kvk_nummer r)) as [E|E]; simpl.
    + destruct (String.eqb_spec (kvk_nummer r) k); [contradiction|].
      destruct (String.eqb_spec (kvk_nummer y) k); [congruence|reflexivity].
    + destruct (String.eqb_spec (kvk_nummer y) k); rewrite IH by exact Hk; reflexivity.
Qed.

Lemma commit_rows_unique : forall stg tbl,
  keys_unique tbl -> keys_unique (commit_rows stg tbl).
Proof.
  induction stg as [|x xs IH]; intros tbl Hu; simpl; [exact Hu|].
  apply IH, merge_unique, Hu.
Qed.

Lemma commit_rows_other k : forall stg tbl,
  rows_for k stg = [] -> rows_for k (commit_rows stg tbl) = rows_for k tbl.
Proof.
  induction stg as [|x xs IH]; intros tbl H; simpl in *; [reflexivity|].
  destruct (String.eqb_spec (kvk_nummer x) k) as [E|E]; [discriminate|].
  rewrite IH by exact H. apply rows_for_merge_other, E.
Qed.

Lemma commit_rows_hit k row : forall stg tbl,
  keys_unique tbl -> rows_for k stg = [row] ->
  rows_for k (commit_rows stg tbl) = [row].
Proof.
  induction stg as [|x xs IH]; intros tbl Hu H; simpl in *; [discriminate|].
  destruct (String.eqb_spec (kvk_nummer x) k) as [E|E].
  - injection H as <- Hxs. rewrite commit_rows_other by exact Hxs.
    subst k. apply rows_for_merge_same, Hu.
  - apply IH; [apply merge_unique, Hu | exact H].
Qed.

(** Inside a scope, a store and session with unique keys stay so. *)
Definition Open (s : State) : Prop :=
  keys_unique (snd s) /\
  exists stg, _session (fst s) = Some stg /\ keys_unique stg.

(** Inside a scope, the row [row] is the only one for [k]: staged, or
    committed with nothing for [k] staged. *)
Definition Holds (k : string) (row : BasisProfielORM) (s : State) : Prop :=
  Open s /\
  exists stg, _session (fst s) = Some stg /\
    (rows_for k stg = [row] \/ (rows_for k stg = [] /\ rows_for k (snd s) = [row])).

Lemma add_open now d s :
  Open s -> exists s', add now d s = (s', inr tt) /\ Open s'.
Proof.
  destruct s as [w tbl]. intros [Hu [stg [Hs Hst]]]. cbn [fst snd] in *.
  unfold add. rewrite Hs.
  destruct (Nat.eqb (S (_count w)) (batch_size w)); eexists; split; try reflexivity.
  - split; simpl; [apply commit_rows_unique, Hu|].
    exists []. split; [reflexivity|constructor].
  - split; [exact Hu|]. eexists; split; [reflexivity|apply merge_unique, Hst].
Qed.

Lemma add_all_open : forall recs s,
  Open s -> exists s', add_all recs s = (s', inr tt) /\ Open s'.
Proof.
  induction recs as [|[now d] rs IH]; intros s Hs; simpl.
  - exists s. split; [reflexivity|exact Hs].
  - destruct (add_open now d s Hs) as [s1 [E1 H1]].
    unfold bind. rewrite E1. apply IH, H1.
Qed.

Lemma add_establish now d s :
  Open s -> exists s', add now d s = (s', inr tt) /\
    Holds (d_kvk_nummer d) (_to_orm d now) s'.
Proof.
  destruct s as [w tbl]. intros [Hu [stg [Hs Hst]]]. cbn [fst snd] in *.
  unfold add. rewrite Hs.
  assert (Hm : rows_for (d_kvk_nummer d) (merge (_to_orm d now) stg) = [_to_orm d now])
    by (apply (rows_for_merge_same (_to_orm d now)), Hst).
  destruct (Nat.eqb (S (_count w)) (batch_size w)); eexists; split; try reflexivity.
  - split.
    + split; simpl; [apply commit_rows_unique, Hu|].
      exists []. split; [reflexivity|constructor].
    + exists []. split; [reflexivity|]. right. split; [reflexivity|].
      simpl. apply commit_rows_hit; assumption.
  - split.
    + split; [exact Hu|]. eexists; split; [reflexivity|apply merge_unique, Hst].
    + eexists; split; [reflexivity|]. left; exact Hm.
Qed.

Lemma add_keep k row now d s :
  d_kvk_nummer d <> k -> Holds k row s ->
  exists s', add now d s = (s', inr tt) /\ Holds k row s'.
Proof.
  destruct s as [w tbl]. intros Hk [[Hu [stg [Hs Hst]]] [stg' [Hs' Hrow]]].
  cbn [fst snd] in *. rewrite Hs in Hs'. injection Hs' as <-.
  unfold add. rewrite Hs.
  assert (Hm : rows_for k (merge (_to_orm d now) stg) = rows_for k stg)
    by (apply rows_for_merge_other; exact Hk).
  destruct (Nat.eqb (S (_count w)) (batch_size w)); eexists; split; try reflexivity.
  - split.
    + split; simpl; [apply commit_rows_unique, Hu|].
      exists []. split; [reflexivity|constructor].
    + exists []. split; [reflexivity|]. right. split; [reflexivity|]. simpl.
      destruct Hrow as [Hr|[Hr Ht]].
      * apply commit_rows_hit; [exact Hu | rewrite Hm; exact Hr].
      * rewrite commit_rows_other by (rewrite Hm; exact Hr). exact Ht.
  - split.
    + split; [exact Hu|]. eexists; split; [reflexivity|apply merge_unique, Hst].
    + eexists; split; [reflexivity|]. simpl. rewrite Hm. exact Hrow.
Qed.

Lemma add_all_keep k row : forall recs s,
  Forall (fun p => d_kvk_nummer (snd p) <> k) recs -> Holds k row s ->
  exists s', add_all recs s = (s', inr tt) /\ Holds k row s'.
Proof.
  induction recs as [|[now d] rs IH]; intros s Hf Hs; simpl.
  - exists s. split; [reflexivity|exact Hs].
  - inversion Hf as [|? ? Hd Hrs]; subst.
    destruct (add_keep k row now d s Hd Hs) as [s1 [E1 H1]].
    unfold bind. rewrite E1. apply IH; assumption.
Qed.

Lemma exit_ok_holds k row s :
  Holds k row s ->
  exists s', exit_ok s = (s', inr tt) /\ rows_for k (snd s') = [row] /\
    _session (fst s') = None.
Proof.
  destruct s as [w tbl]. intros [[Hu _] [stg [Hs Hrow]]]. simpl in *.
  unfold exit_ok. rewrite Hs. eexists. split; [reflexivity|]. simpl.
  split; [|reflexivity].
  destruct Hrow as [Hr|[Hr Ht]].
  - apply commit_rows_hit; assumption.
  - rewrite commit_rows_other by exact Hr. exact Ht.
Qed.

Lemma enter_state w tbl :
  enter (w, tbl) = ((set_session w (Some []), tbl), inr tt).
Proof. reflexivity. Qed.

Lemma enter_open w tbl : keys_unique tbl -> Open (set_session w (Some []), tbl).
Proof.
  intros Hu. split; [exact Hu|]. exists []. split; [reflexivity|constructor].
Qed.

(** C6: within one scope, adding [d] at time [now] after any earlier adds
    (which may stage a row for the same key, on top of rows committed by
    earlier scopes), followed by adds of other keys, leaves exactly one row
    for the key: the fields of [d] with [last_updated = now]. *)
Theorem add_upsert_single_row (w : BasisProfielWriter) (tbl : list BasisProfielORM)
    (before rest : list (Z * BasisProfielDomain)) (now : Z) (d : BasisProfielDomain) :
  keys_unique tbl ->
  Forall (fun p => d_kvk_nummer (snd p) <> d_kvk_nummer d) rest ->
  let res := with_writer (add_all before ;;; add now d ;;; add_all rest) (w, tbl) in
  snd res = inr tt /\
  rows_for (d_kvk_nummer d) (snd (fst res)) = [_to_orm d now] /\
  keys_unique (snd (fst res)).
Proof.
  intros Hu Hrest res. unfold res, with_writer. rewrite enter_state.
  destruct (add_all_open before _ (enter_open w tbl Hu)) as [s1 [E1 H1]].
  destruct (add_establish now d s1 H1) as [s2 [E2 H2]].
  destruct (add_all_keep _ _ rest s2 Hrest H2) as [s3 [E3 H3]].
  destruct (exit_ok_holds _ _ s3 H3) as [s4 [E4 [H4 _]]].
  unfold bind. rewrite E1, E2, E3, E4. cbn [fst snd].
  split; [reflexivity|]. split; [exact H4|].
  destruct H3 as [[Hu3 [stg [Hs3 Hst3]]] _].
  destruct s3 as [w3 tbl3]. unfold exit_ok in E4. cbn [fst snd] in *.
  rewrite Hs3 in E4. injection E4 as <-. apply commit_rows_unique, Hu3.
Qed.

(** The test scenario [test_update_existing_basisprofiel]: one scope adds a
    record, a second scope adds the updated record for the same key. *)
Definition rec1 : BasisProfielDomain :=
  mkBasisProfielDomain "12345678" (Some "Test B.V."%string) (Some "B.V."%string) None.
Definition rec2 : BasisProfielDomain :=
  mkBasisProfielDomain "12345678" (Some "Updated Company B.V."%string) (Some "B.V."%string)
    (Some 10).

Example first_scope_commits :
  snd (fst (with_writer (add 100 rec1) (default_writer, []))) = [_to_orm rec1 100].
Proof. reflexivity. Qed.

Lemma add_upsert_single_row_witness :
  keys_unique [_to_orm rec1 100] /\
  rows_for "12345678" (snd (fst (with_writer (add_all [] ;;; add 200 rec2 ;;; add_all [])
                                   (default_writer, [_to_orm rec1 100]))))
  = [_to_orm rec2 200].
Proof.
  assert (Hu : keys_unique [_to_orm rec1 100])
    by (vm_compute; constructor; [intros []|constructor]).
  split; [exact Hu|].
  exact (proj1 (proj2 (add_upsert_single_row default_writer [_to_orm rec1 100] [] []
           200 rec2 Hu (Forall_nil _)))).
Defined.

Lemma add_all_pending : forall recs w tbl stg,
  _session w = Some stg -> (_count w + List.length recs < batch_size w)%nat ->
  exists stg', add_all recs (w, tbl) =
    ((mkBasisProfielWriter (batch_size w) (Some stg') (_count w + List.length recs), tbl),
     inr tt).
Proof.
  induction recs as [|[now d] rs IH]; intros w tbl stg Hs Hc; simpl.
  - exists stg. destruct w as [bs o c]; simpl in *. subst o.
    rewrite Nat.add_0_r. reflexivity.
  - unfold bind, add. rewrite Hs.
    simpl List.length in Hc.
    destruct (Nat.eqb_spec (S (_count w)) (batch_size w)) as [E|E]; [lia|].
    destruct (IH (mkBasisProfielWriter (batch_size w) (Some (merge (_to_orm d now) stg))
                   (S (_count w))) tbl _ eq_refl ltac:(simpl; lia)) as [stg' E'].
    exists stg'. rewrite E'. simpl. do 3 f_equal. lia.
Qed.

(** C5: an exception raised in the scope after adds that did not fill a
    batch leaves the committed table as it was, and closes the session. *)
Theorem with_writer_rollback (w : BasisProfielWriter) (tbl : list BasisProfielORM)
    (recs : list (Z * BasisProfielDomain)) (e : nat) :
  (_count w + List.length recs < batch_size w)%nat ->
  let res := with_writer (add_all recs ;;; raise (Raised e)) (w, tbl) in
  snd res = inl (Raised e) /\ snd (fst res) = tbl /\ _session (fst (fst res)) = None.
Proof.
  intros Hc res. unfold res, with_writer. rewrite enter_state.
  destruct (add_all_pending recs (set_session w (Some [])) tbl [] eq_refl Hc)
    as [stg' E].
  unfold bind. rewrite E. simpl. repeat split.
Qed.

Lemma with_writer_rollback_witness :
  (_count (new_writer 10) + List.length [(100, rec1)] < batch_size (new_writer 10))%nat /\
  snd (fst (with_writer (add_all [(100, rec1)] ;;; raise (Raised 0)) (new_writer 10, [])))
    = [].
Proof.
  split; [vm_compute; lia|].
  exact (proj1 (proj2 (with_writer_rollback (new_writer 10) [] [(100, rec1)] 0
           ltac:(vm_compute; lia)))).
Defined.

(** C10: no session before the first scope; [add] without a session raises
    [SessionNotInitialized] and changes nothing; every scope, however it
    ends, leaves no session; entering again opens a fresh, empty session
    over the table as the earlier scopes left it. *)
Theorem writer_session_lifecycle :
  _session default_writer = None /\
  (forall bs, _session (new_writer bs) = None) /\
  (forall w tbl now d, _session w = None ->
     add now d (w, tbl) = ((w, tbl), inl SessionNotInitialized)) /\
  (forall body s, _session (fst (fst (with_writer body s))) = None) /\
  (forall body s,
     let s1 := fst (with_writer body s) in
     enter s1 = ((set_session (fst s1) (Some []), snd s1), inr tt)).
Proof.
  split; [reflexivity|]. split; [reflexivity|]. split.
  - intros w tbl now d Hs. unfold add. rewrite Hs. reflexivity.
  - split.
    + intros body [w tbl]. unfold with_writer. rewrite enter_state.
      destruct (body (set_session w (Some []), tbl)) as [[w2 tbl2] [err|u]].
      * reflexivity.
      * unfold exit_ok. destruct (_session w2) eqn:E; [reflexivity|exact E].
    + intros body s. cbv zeta. destruct (fst (with_writer body s)) as [w1 tbl1].
      reflexivity.
Qed.

Lemma writer_session_lifecycle_witness :
  add 100 rec1 (default_writer, []) = ((default_writer, []), inl SessionNotInitialized) /\
  _session (fst (fst (with_writer (add 100 rec1) (default_writer, [])))) = None.
Proof.
  destruct writer_session_lifecycle as [H0 [_ [Hadd [Hexit _]]]].
  split; [apply Hadd, H0 | apply Hexit].
Defined.

End WriterFacts.

Module DatesFacts.
Import Dates.

Example parse_tests :
  parse_kvk_datum (Some "15-03-2024"%string) = Some (mkDate 2024 3 15) /\
  parse_kvk_datum (Some "  15-03-2024  "%string) = Some (mkDate 2024 3 15) /\
  parse_kvk_datum (Some "19700000"%string) = Some (mkDate 1970 1 1) /\
  parse_kvk_datum (Some "18720500"%string) = Some (mkDate 1872 5 1) /\
  parse_kvk_datum (Some "2024-03-15"%string) = None /\
  parse_kvk_datum (Some "32-13-2024"%string) = None /\
  parse_kvk_datum (Some "20200232"%string) = None /\
  parse_kvk_datum (Some "1970032"%string) = None /\
  parse_kvk_datum (Some "None"%string) = None /\
  parse_kvk_datum (Some "   "%string) = None /\
  parse_kvk_datum None = None.
Proof. vm_compute. repeat split. Qed.

Lemma digit_cases x : 0 <= x < 10 ->
  x = 0 \/ x = 1 \/ x = 2 \/ x = 3 \/ x = 4 \/ x = 5 \/ x = 6 \/ x = 7 \/ x = 8 \/ x = 9.
Proof. lia. Qed.

Lemma digit_val_char x : 0 <= x < 10 -> digit_val (char_of_digit x) = Some x.
Proof.
  intros H. destruct (digit_cases x H) as [->|[->|[->|[->|[->|[->|[->|[->|[->| ->]]]]]]]]];
    reflexivity.
Qed.

Lemma is_ws_char x : 0 <= x < 10 -> is_ws (char_of_digit x) = false.
Proof.
  intros H. destruct (digit_cases x H) as [->|[->|[->|[->|[->|[->|[->|[->|[->| ->]]]]]]]]];
    reflexivity.
Qed.

Lemma digits2 x : 0 <= x < 100 ->
  digits [char_of_digit (x / 10); char_of_digit (x mod 10)] = Some x.
Proof.
  intros H. unfold digits. cbn [digits_from].
  pose proof (Z.div_mod x 10 ltac:(lia)). pose proof (Z.mod_pos_bound x 10 ltac:(lia)).
  rewrite (digit_val_char (x / 10)) by lia. cbn [digits_from].
  rewrite (digit_val_char (x mod 10)) by lia. cbn [digits_from].
  f_equal. lia.
Qed.

Lemma digits4 y : 0 <= y < 10000 ->
  digits [char_of_digit (y / 1000); char_of_digit (y / 100 mod 10);
          char_of_digit (y / 10 mod 10); char_of_digit (y mod 10)] = Some y.
Proof.
  intros H. unfold digits. cbn [digits_from].
  pose proof (Z.div_mod y 10 ltac:(lia)).
  pose proof (Z.div_mod (y / 10) 10 ltac:(lia)).
  pose proof (Z.div_mod (y / 100) 10 ltac:(lia)).
  pose proof (Z.div_mod y 1000 ltac:(lia)).
  pose proof (Z.mod_pos_bound y 10 ltac:(lia)).
  pose proof (Z.mod_pos_bound (y / 10) 10 ltac:(lia)).
  pose proof (Z.mod_pos_bound (y / 100) 10 ltac:(lia)).
  pose proof (Z.mod_pos_bound y 1000 ltac:(lia)).
  rewrite (Z.div_div y 10 10) in * by lia.
  rewrite (Z.div_div y 100 10) in * by lia.
  change (10 * 10) with 100 in *. change (100 * 10) with 1000 in *.
  assert (0 <= y / 1000 < 10) by lia.
  rewrite (digit_val_char (y / 1000)) by lia. cbn [digits_from].
  rewrite (digit_val_char (y / 100 mod 10)) by lia. cbn [digits_from].
  rewrite (digit_val_char (y / 10 mod 10)) by lia. cbn [digits_from].
  rewrite (digit_val_char (y mod 10)) by lia. cbn [digits_from].
  f_equal. lia.
Qed.

Lemma drop_ws_cons c r : is_ws c = false -> drop_ws (c :: r) = c :: r.
Proof. intros H. simpl. rewrite H. reflexivity. Qed.

Lemma length_string_of_list_ascii : forall l,
  String.length (string_of_list_ascii l) = List.length l.
Proof. induction l as [|c l IH]; simpl; congruence. Qed.

Lemma parse_kvk_datum_clean l :
  strip l = l -> (5 <= List.length l)%nat ->
  parse_kvk_datum (Some (string_of_list_ascii l)) =
  match parse_ddmmyyyy l with Some dt => Some dt | None => parse_yyyymmdd l end.
Proof.
  intros Hs Hl. unfold parse_kvk_datum.
  rewrite list_ascii_of_string_of_list_ascii, Hs.
  destruct (String.eqb_spec (string_of_list_ascii l) "") as [E|E].
  { apply (f_equal String.length) in E. rewrite length_string_of_list_ascii in E.
    simpl in E. lia. }
  destruct (String.eqb_spec (string_of_list_ascii l) "None") as [E'|E'].
  { apply (f_equal String.length) in E'. rewrite length_string_of_list_ascii in E'.
    simpl in E'. lia. }
  simpl. rewrite list_ascii_of_string_of_list_ascii. reflexivity.
Qed.

Lemma days_in_month_le y m : days_in_month y m <= 31.
Proof.
  unfold days_in_month.
  destruct (m =? 2); [destruct (is_leap y); lia|].
  destruct ((m =? 4) || (m =? 6) || (m =? 9) || (m =? 11)); lia.
Qed.

Lemma valid_date_bounds y m d : valid_date y m d = true ->
  1 <= y <= 9999 /\ 1 <= m <= 12 /\ 1 <= d <= 31.
Proof.
  unfold valid_date. intros H.
  repeat rewrite andb_true_iff in H. repeat rewrite Z.leb_le in H.
  pose proof (days_in_month_le y m). lia.
Qed.

(** C9: ["20200100"] is January 1, 2020; ["00000000"] is no date; for every
    calendar date its [DD-MM-YYYY] and [YYYYMMDD] renderings both parse to
    that date. *)
Theorem parse_kvk_datum_spec :
  parse_kvk_datum (Some "20200100"%string) = Some (mkDate 2020 1 1) /\
  parse_kvk_datum (Some "00000000"%string) = None /\
  (forall y m d, valid_date y m d = true ->
     parse_kvk_datum (Some (format_ddmmyyyy y m d)) = Some (mkDate y m d) /\
     parse_kvk_datum (Some (format_yyyymmdd y m d)) = Some (mkDate y m d)).
Proof.
  split; [vm_compute; reflexivity|]. split; [vm_compute; reflexivity|].
  intros y m d Hv. destruct (valid_date_bounds y m d Hv) as [Hy [Hm Hd]].
  pose proof (Z.mod_pos_bound y 10 ltac:(lia)).
  pose proof (Z.mod_pos_bound d 10 ltac:(lia)).
  assert (0 <= d / 10 < 10) by (split; [apply Z.div_pos | apply Z.div_lt_upper_bound]; lia).
  assert (0 <= y / 1000 < 10) by (split; [apply Z.div_pos | apply Z.div_lt_upper_bound]; lia).
  split.
  - unfold format_ddmmyyyy. rewrite parse_kvk_datum_clean.
    + unfold parse_ddmmyyyy. rewrite Ascii.eqb_refl. cbn [andb].
      rewrite (digits2 d), (digits2 m), (digits4 y), Hv by lia. reflexivity.
    + unfold strip. rewrite drop_ws_cons by (apply is_ws_char; lia).
      cbn [rev app]. rewrite drop_ws_cons by (apply is_ws_char; lia).
      cbn [rev app]. reflexivity.
    + simpl. lia.
  - unfold format_yyyymmdd. rewrite parse_kvk_datum_clean.
    + cbn [parse_ddmmyyyy]. unfold parse_yyyymmdd.
      rewrite (digits2 d), (digits2 m), (digits4 y) by lia.
      destruct (Z.eqb_spec m 0); [lia|]. destruct (Z.eqb_spec d 0); [lia|].
      rewrite Hv. reflexivity.
    + unfold strip. rewrite drop_ws_cons by (apply is_ws_char; lia).
      cbn [rev app]. rewrite drop_ws_cons by (apply is_ws_char; lia).
      cbn [rev app]. reflexivity.
    + simpl. lia.
Qed.

Lemma parse_kvk_datum_spec_witness :
  valid_date 2020 1 15 = true /\
  parse_kvk_datum (Some (format_ddmmyyyy 2020 1 15)) =
  parse_kvk_datum (Some (format_yyyymmdd 2020 1 15)).
Proof.
  split; [reflexivity|].
  destruct parse_kvk_datum_spec as [_ [_ H]].
  destruct (H 2020 1 15 eq_refl) as [H1 H2]. rewrite H1, H2. reflexivity.
Defined.

End DatesFacts.

Module ReaderMoreFacts.
Import Store Reader ReaderMore ReaderFacts.

Lemma has_profile_iff db k :
  has_profile db k = true <-> exists b, In b (basisprofielen db) /\ kvk_nummer b = k.
Proof.
  unfold has_profile. rewrite existsb_exists. split.
  - intros [b [Hb E]]. apply String.eqb_eq in E. exists b; auto.
  - intros [b [Hb E]]. exists b. split; [exact Hb|]. apply String.eqb_eq, E.
Qed.

Lemma missing_rows_In db k :
  In k (distinct (map kvknummer
          (filter (fun s => negb (has_profile db (kvknummer s))) (signalen db))))
  <-> missing_key db k.
Proof.
  rewrite distinct_In, in_map_iff. unfold missing_key. split.
  - intros [s [Hk Hs]]. apply filter_In in Hs. destruct Hs as [Hs Hn].
    split; [exists s; auto|].
    rewrite <- has_profile_iff, <- Hk. destruct (has_profile db (kvknummer s)); easy.
  - intros [[s [Hs Hk]] Hn]. exists s. split; [exact Hk|].
    apply filter_In. split; [exact Hs|].
    rewrite Hk. destruct (has_profile db k) eqn:E; [|reflexivity].
    exfalso. apply Hn, has_profile_iff, E.
Qed.

Lemma remove_nth_perm {A} : forall i (l : list A) x,
  nth_error l i = Some x -> Permutation l (x :: remove_nth i l).
Proof.
  induction i as [|i IH]; intros [|y l] x H; simpl in H; try discriminate.
  - injection H as ->. simpl. apply Permutation_refl.
  - simpl. eapply perm_trans; [apply perm_skip, (IH l x H)|]. apply perm_swap.
Qed.

Lemma sample_with_full {A} : forall k rng (pool : list A),
  k = List.length pool -> Permutation (sample_with rng pool k) pool.
Proof.
  induction k as [|k IH]; intros rng pool Hk; simpl.
  - destruct pool; [constructor | discriminate].
  - assert (Hi : (Nat.modulo (hd O rng) (List.length pool) < List.length pool)%nat)
      by (apply Nat.mod_upper_bound; lia).
    destruct (nth_error pool _) as [x|] eqn:E.
    + pose proof (remove_nth_perm _ _ _ E) as P.
      apply Permutation_length in P as HL. simpl in HL.
      eapply perm_trans; [apply perm_skip, IH; lia|]. apply Permutation_sym, P.
    + apply nth_error_None in E. lia.
Qed.

Lemma sample_with_length {A} : forall k rng (pool : list A),
  (k <= List.length pool)%nat -> List.length (sample_with rng pool k) = k.
Proof.
  induction k as [|k IH]; intros rng pool Hk; simpl; [reflexivity|].
  assert (Hi : (Nat.modulo (hd O rng) (List.length pool) < List.length pool)%nat)
    by (apply Nat.mod_upper_bound; lia).
  destruct (nth_error pool _) as [x|] eqn:E.
  - pose proof (Permutation_length (remove_nth_perm _ _ _ E)) as HL. simpl in HL.
    simpl. rewrite IH; [reflexivity | lia].
  - apply nth_error_None in E. lia.
Qed.

Lemma NoDup_same_length (l1 l2 : list string) :
  NoDup l1 -> NoDup l2 -> (forall x, In x l1 <-> In x l2) ->
  List.length l1 = List.length l2.
Proof.
  intros N1 N2 H. apply Nat.le_antisymm; apply NoDup_incl_length; auto;
    intros x Hx; apply H; exact Hx.
Qed.

(** X1: with [limit >= 1] the count is the number of distinct signalled keys
    without a base profile, however large; with [limit = 0] it is 0. *)
Theorem get_missing_count_spec (db : DB) (limit : nat) (K : list string) :
  NoDup K -> (forall k, In k K <-> missing_key db k) ->
  get_missing_kvk_nummers_count db limit =
    if Nat.eqb limit 0 then 0%nat else List.length K.
Proof.
  intros HK HKi. destruct limit as [|l]; simpl; [reflexivity|].
  apply NoDup_same_length; [apply distinct_NoDup | exact HK|].
  intros x. rewrite missing_rows_In, HKi. reflexivity.
Qed.

Lemma get_missing_count_spec_witness :
  NoDup ["10000001"%string; "10000002"%string] /\
  get_missing_kvk_nummers_count db_two_missing 1 = 2%nat.
Proof.
  assert (HN : NoDup ["10000001"%string; "10000002"%string])
    by (constructor; [intros [H|[]]; discriminate | constructor; [intros []|constructor]]).
  split; [exact HN|].
  rewrite (get_missing_count_spec db_two_missing 1 _ HN); [reflexivity|].
  intros k. rewrite <- missing_rows_In. vm_compute. tauto.
Defined.

Lemma kvk_nummer_exists_rows (db : DB) (k : string) :
  kvk_nummer_exists db k = true <->
  exists b, In b (basisprofielen db) /\ kvk_nummer b = k.
Proof.
  unfold kvk_nummer_exists.
  destruct (filter (fun b => String.eqb (kvk_nummer b) k) (basisprofielen db)) as [|b r] eqn:E;
    simpl.
  - split; [discriminate|]. intros [b [Hb Hk]].
    assert (In b (filter (fun b => String.eqb (kvk_nummer b) k) (basisprofielen db)))
      by (apply filter_In; split; [exact Hb | apply String.eqb_eq, Hk]).
    rewrite E in H. contradiction.
  - split; [|reflexivity]. intros _.
    assert (Hb : In b (filter (fun b => String.eqb (kvk_nummer b) k) (basisprofielen db)))
      by (rewrite E; left; reflexivity).
    apply filter_In in Hb. destruct Hb as [Hb Hk]. apply String.eqb_eq in Hk.
    exists b; auto.
Qed.

Lemma kvk_nummer_exists_keys (table : list BasisProfielORM) (k : string) :
  kvk_nummer_exists (mkDB [] table) k = true <-> In k (map kvk_nummer table).
Proof.
  rewrite kvk_nummer_exists_rows, in_map_iff. simpl.
  split; intros [b [H1 H2]]; exists b; auto.
Qed.

(** X2: [kvk_nummer_exists] is true exactly when a base-profile row with
    that KvK number is stored; the signal table plays no part. *)
Theorem kvk_nummer_exists_iff (db : DB) (k : string) :
  kvk_nummer_exists db k = true <->
  exists b, In b (basisprofielen db) /\ kvk_nummer b = k.
Proof. exact (kvk_nummer_exists_rows db k). Qed.

(** X3: [get_missing_kvk_nummers] returns, in a random order, exactly the
    first [limit] distinct missing keys of the query: duplicate-free, at
    most [limit] keys, each signalled and without a base profile, and all of
    them when at most [limit] keys are missing. *)
Theorem get_missing_kvk_nummers_spec (rng : list nat) (db : DB) (limit : nat) :
  let res := get_missing_kvk_nummers rng db limit in
  Permutation res (missing_query db limit) /\
  NoDup res /\ (List.length res <= limit)%nat /\
  (forall k, In k res -> missing_key db k) /\
  (forall K : list string, (forall k, missing_key db k -> In k K) ->
     (List.length K <= limit)%nat -> forall k, missing_key db k -> In k res).
Proof.
  cbv zeta. unfold get_missing_kvk_nummers.
  assert (Hle : (List.length (missing_query db limit) <= limit)%nat)
    by apply firstn_le_length.
  rewrite Nat.min_r by exact Hle.
  pose proof (sample_with_full _ rng (missing_query db limit) eq_refl) as P.
  assert (HND : NoDup (missing_query db limit))
    by (apply firstn_NoDup, distinct_NoDup).
  split; [exact P|]. split; [exact (Permutation_NoDup (Permutation_sym P) HND)|].
  split; [rewrite (Permutation_length P); exact Hle|].
  split.
  - intros k Hk. apply (Permutation_in _ P) in Hk.
    apply firstn_In_l in Hk. apply missing_rows_In, Hk.
  - intros K HK Hlen k Hk. apply (Permutation_in _ (Permutation_sym P)).
    unfold missing_query.
    set (D := distinct _).
    assert (Hinc : incl D K)
      by (intros x Hx; apply HK, missing_rows_In, Hx).
    pose proof (NoDup_incl_length (distinct_NoDup _) Hinc) as HDK. fold D in HDK.
    rewrite firstn_all2 by lia. apply missing_rows_In, Hk.
Qed.

(** X4: [process_missing] logs the count, then receives [min(limit, count)]
    keys from [get_missing_kvk_nummers]. *)
Theorem get_missing_length_count (rng : list nat) (db : DB) (limit : nat) :
  List.length (get_missing_kvk_nummers rng db limit) =
  Nat.min limit (get_missing_kvk_nummers_count db limit).
Proof.
  unfold get_missing_kvk_nummers, get_missing_kvk_nummers_count, missing_query.
  rewrite sample_with_length by lia.
  destruct limit as [|l]; [reflexivity|].
  rewrite length_firstn. cbn [firstn]. lia.
Qed.

(** X5: no key is both missing and outdated: [get_missing_kvk_nummers]
    and [get_outdated_kvk_nummers] never share a key. *)
Theorem missing_outdated_disjoint (rng : list nat) (db : DB) (l1 l2 : nat) (k : string) :
  In k (get_missing_kvk_nummers rng db l1) ->
  ~ In k (get_outdated_kvk_nummers db l2).
Proof.
  intros Hm Ho.
  apply get_missing_from_prefix, firstn_In_l, missing_rows_In in Hm.
  apply firstn_In_l, distinct_In, outdated_rows_In in Ho.
  destruct Hm as [_ Hn]. destruct Ho as [s [b [_ [Hb [_ [Hbk _]]]]]].
  apply Hn. exists b. auto.
Qed.

Lemma missing_outdated_disjoint_witness :
  In "10000001"%string (get_missing_kvk_nummers [] db_two_missing 5) /\
  ~ In "10000001"%string (get_outdated_kvk_nummers db_two_missing 5).
Proof.
  assert (H : In "10000001"%string (get_missing_kvk_nummers [] db_two_missing 5))
    by (vm_compute; left; reflexivity).
  split; [exact H|]. exact (missing_outdated_disjoint [] db_two_missing 5 5 _ H).
Defined.

End ReaderMoreFacts.

Module BasisprofielAppFacts.
Import Store Writer BasisprofielApp WriterFacts.

Lemma commit_rows_keys_mono : forall stg tbl k,
  In k (map kvk_nummer tbl) -> In k (map kvk_nummer (commit_rows stg tbl)).
Proof.
  unfold commit_rows. induction stg as [|r stg IH]; intros tbl k H; simpl; [exact H|].
  apply IH, merge_keys_In. right. exact H.
Qed.

Lemma add_keys_mono now d s s' :
  add now d s = (s', inr tt) ->
  forall k, In k (map kvk_nummer (snd s)) -> In k (map kvk_nummer (snd s')).
Proof.
  destruct s as [w tbl]. unfold add.
  destruct (_session w) as [stg|]; [|discriminate].
  destruct (Nat.eqb _ _); intros H; injection H as <-; simpl; intros k Hk;
    [apply commit_rows_keys_mono|]; exact Hk.
Qed.

Lemma add_no_session now d w tbl :
  _session w = None -> add now d (w, tbl) = ((w, tbl), inl SessionNotInitialized).
Proof. intros H. unfold add. rewrite H. reflexivity. Qed.

Section App.
Variable get_basisprofiel : string -> option BasisProfielDomain.
Variable now : Z.
Variable py_strip : string -> string.

Definition found (k : string) : bool :=
  match get_basisprofiel k with Some _ => true | None => false end.

Lemma process_from_open : forall ks count s, Open s ->
  exists s', process_kvk_nummers_from get_basisprofiel now count ks s =
             (s', inr (count + List.length (filter found ks))%nat) /\ Open s'.
Proof.
  induction ks as [|k ks IH]; intros count s HO; simpl.
  - exists s. rewrite Nat.add_0_r. split; [reflexivity | exact HO].
  - unfold found at 1. destruct (get_basisprofiel k) as [rec|] eqn:G.
    + destruct (add_open now rec s HO) as [s1 [Ha HO1]].
      unfold bind. rewrite Ha.
      destruct (IH (S count) s1 HO1) as [s2 [Hp HO2]].
      exists s2. rewrite Hp. split; [f_equal; f_equal; simpl; lia | exact HO2].
    + exact (IH count s HO).
Qed.

Lemma process_from_no_session : forall ks count w tbl, _session w = None ->
  process_kvk_nummers_from get_basisprofiel now count ks (w, tbl) =
  ((w, tbl), if existsb found ks then inl SessionNotInitialized else inr count).
Proof.
  induction ks as [|k ks IH]; intros count w tbl H; simpl; [reflexivity|].
  unfold found at 1. destruct (get_basisprofiel k) as [rec|] eqn:G.
  - unfold bind. rewrite add_no_session by exact H. reflexivity.
  - apply IH, H.
Qed.

(** The records [get_basisprofiel] finds for [ks], in order. *)
Definition found_records (ks : list string) : list BasisProfielDomain :=
  flat_map (fun k => match get_basisprofiel k with Some d => [d] | None => [] end) ks.

Lemma found_records_length ks : List.length (found_records ks) = List.length (filter found ks).
Proof.
  induction ks as [|k ks IH]; simpl; [reflexivity|].
  unfold found at 1. destruct (get_basisprofiel k); simpl; congruence.
Qed.

Lemma process_from_add_all : forall ks count s,
  process_kvk_nummers_from get_basisprofiel now count ks s =
  (add_all (map (fun d => (now, d)) (found_records ks)) ;;;
   ret (count + List.length (found_records ks))%nat) s.
Proof.
  induction ks as [|k ks IH]; intros count s.
  - simpl. rewrite Nat.add_0_r. reflexivity.
  - simpl. destruct (get_basisprofiel k) as [d|] eqn:G; simpl.
    + replace (count + S (List.length (found_records ks)))%nat
        with (S count + List.length (found_records ks))%nat by lia.
      unfold bind at 1 2 3. destruct (add now d s) as [s1 [e|[]]]; [reflexivity|].
      rewrite IH. reflexivity.
    + apply IH.
Qed.

(** The bookkeeping of [process_csv] that holds after every value. *)
Definition Good (c : CsvCounters) : Prop :=
  count_total c = (count_skipped c + List.length (fetched c))%nat /\
  count_processed c = List.length (filter found (fetched c)).

Definition keys (s : State) : list string := map kvk_nummer (snd s).

Definition Progress (s : State) (c : CsvCounters) (s' : State) (c' : CsvCounters)
    (n : nat) : Prop :=
  Open s' /\
  (forall k, In k (keys s) -> In k (keys s')) /\
  count_total c' = (count_total c + n)%nat /\
  (exists new, fetched c' = fetched c ++ new /\ forall k, In k new -> ~ In k (keys s)) /\
  (Good c -> Good c').

Lemma progress_refl s c : Open s -> Progress s c s c 0.
Proof.
  intros HO. split; [exact HO|]. split; [auto|]. split; [lia|]. split; [|auto].
  exists []. rewrite app_nil_r. split; [reflexivity | intros k []].
Qed.

Lemma progress_trans s c s1 c1 n1 s2 c2 n2 :
  Progress s c s1 c1 n1 -> Progress s1 c1 s2 c2 n2 -> Progress s c s2 c2 (n1 + n2).
Proof.
  intros [_ [M1 [T1 [[new1 [F1 N1]] G1]]]] [O2 [M2 [T2 [[new2 [F2 N2]] G2]]]].
  split; [exact O2|]. split; [auto|]. split; [lia|]. split; [|auto].
  exists (new1 ++ new2). split; [rewrite F2, F1, app_assoc; reflexivity|].
  intros k Hk. apply in_app_or in Hk as [Hk|Hk]; [apply N1, Hk|].
  intros Hs. apply (N2 k Hk), M1, Hs.
Qed.

Lemma value_progress c k s : Open s ->
  exists s' c', process_csv_value get_basisprofiel now c k s = (s', inr c') /\
                Progress s c s' c' 1.
Proof.
  destruct s as [w tbl]. intros HO. unfold process_csv_value.
  destruct (ReaderMore.kvk_nummer_exists (table_db tbl) k) eqn:E.
  - eexists _, _. split; [reflexivity|].
    split; [exact HO|]. split; [auto|]. split; [simpl; lia|].
    split; [exists []; rewrite app_nil_r; split; [reflexivity | intros x []]|].
    intros [G1 G2]. unfold Good; simpl. split; lia.
  - assert (Hk : ~ In k (keys (w, tbl))).
    { intros Hk.
      assert (ReaderMore.kvk_nummer_exists (table_db tbl) k = true)
        by (apply ReaderMoreFacts.kvk_nummer_exists_keys, Hk).
      congruence. }
    assert (HF : forall x, In x [k] -> ~ In x (keys (w, tbl)))
      by (intros x [<-|[]]; exact Hk).
    destruct (get_basisprofiel k) as [rec|] eqn:G.
    + destruct (add_open now rec (w, tbl) HO) as [s1 [Ha HO1]].
      unfold bind, ret. rewrite Ha. eexists _, _. split; [reflexivity|].
      split; [exact HO1|]. split; [exact (add_keys_mono _ _ _ _ Ha)|].
      split; [simpl; lia|]. split; [exists [k]; split; [reflexivity | exact HF]|].
      intros [G1 G2]. unfold Good; simpl. rewrite filter_app, !length_app. simpl.
      unfold found at 2. rewrite G. simpl. lia.
    + eexists _, _. split; [reflexivity|].
      split; [exact HO|]. split; [auto|]. split; [simpl; lia|].
      split; [exists [k]; split; [reflexivity | exact HF]|].
      intros [G1 G2]. unfold Good; simpl. rewrite filter_app, !length_app. simpl.
      unfold found at 2. rewrite G. simpl. lia.
Qed.

Definition nonblank (v : string) : bool := negb (String.eqb (py_strip v) "").

Lemma row_progress : forall row c s, Open s ->
  exists s' c', process_csv_row py_strip get_basisprofiel now c row s = (s', inr c') /\
                Progress s c s' c' (List.length (filter nonblank row)).
Proof.
  induction row as [|v vs IH]; intros c s HO; simpl.
  - exists s, c. split; [reflexivity | apply progress_refl, HO].
  - unfold nonblank at 1. destruct (String.eqb (py_strip v) "") eqn:E; simpl.
    + apply IH, HO.
    + destruct (value_progress c (py_strip v) s HO) as [s1 [c1 [Hv P1]]].
      unfold bind. rewrite Hv.
      destruct (IH c1 s1 (proj1 P1)) as [s2 [c2 [Hr P2]]].
      exists s2, c2. split; [exact Hr|].
      exact (progress_trans _ _ _ _ 1 _ _ _ P1 P2).
Qed.

Lemma rows_progress : forall rows c s, Open s ->
  exists s' c', process_csv_rows py_strip get_basisprofiel now c rows s = (s', inr c') /\
                Progress s c s' c' (List.length (filter nonblank (List.concat rows))).
Proof.
  induction rows as [|row rs IH]; intros c s HO; simpl.
  - exists s, c. split; [reflexivity | apply progress_refl, HO].
  - destruct (row_progress row c s HO) as [s1 [c1 [Hr P1]]].
    unfold bind. rewrite Hr.
    destruct (IH c1 s1 (proj1 P1)) as [s2 [c2 [Hs P2]]].
    exists s2, c2. split; [exact Hs|].
    rewrite filter_app, length_app. exact (progress_trans _ _ _ _ _ _ _ _ P1 P2).
Qed.

End App.

(** X6: [process_kvk_nummers] does exactly what adding, one by one and at
    the writer's clock time, the records found for the KvK numbers (in their
    order) does, and then returns how many there were; on an open writer it
    never fails and leaves the writer open. *)
Theorem process_kvk_nummers_count get_basisprofiel now ks (s : State) :
  Open s ->
  process_kvk_nummers get_basisprofiel now ks s =
    (add_all (map (fun d => (now, d)) (found_records get_basisprofiel ks)) ;;;
     ret (List.length (found_records get_basisprofiel ks))) s /\
  exists s', process_kvk_nummers get_basisprofiel now ks s =
             (s', inr (List.length (found_records get_basisprofiel ks))) /\ Open s'.
Proof.
  intros HO. split; [exact (process_from_add_all get_basisprofiel now ks 0 s)|].
  rewrite found_records_length.
  exact (process_from_open get_basisprofiel now ks 0 s HO).
Qed.

(** An open writer with an empty table and nothing staged, and a fake
    record service that knows only "10000001". *)
Definition open0 : State := (set_session default_writer (Some []), []).

Definition get0 (k : string) : option BasisProfielDomain :=
  if String.eqb k "10000001" then Some (mkBasisProfielDomain k None None None) else None.

Lemma open0_Open : Open open0.
Proof. split; [constructor|]. exists []. split; [reflexivity | constructor]. Qed.

Lemma process_kvk_nummers_count_witness :
  Open open0 /\
  process_kvk_nummers get0 0 ["10000001"%string; "20000002"%string] open0 =
    (add_all (map (fun d => (0, d)) (found_records get0 ["10000001"%string; "20000002"%string])) ;;;
     ret (List.length (found_records get0 ["10000001"%string; "20000002"%string]))) open0 /\
  exists s', process_kvk_nummers get0 0 ["10000001"%string; "20000002"%string] open0 =
             (s', inr (List.length (found_records get0 ["10000001"%string; "20000002"%string])))
             /\ Open s'.
Proof. split; [exact open0_Open | apply process_kvk_nummers_count, open0_Open]. Defined.

(** X7: without an active session, [process_kvk_nummers] fails with
    "Session not initialized" as soon as one record is found, leaving the
    writer and table untouched; when no record is found it returns 0. *)
Theorem process_kvk_nummers_no_session get_basisprofiel now ks w tbl :
  _session w = None ->
  process_kvk_nummers get_basisprofiel now ks (w, tbl) =
  ((w, tbl), if existsb (found get_basisprofiel) ks then inl SessionNotInitialized
             else inr 0%nat).
Proof. intros H. exact (process_from_no_session get_basisprofiel now ks 0 w tbl H). Qed.

Lemma process_kvk_nummers_no_session_witness :
  _session default_writer = None /\
  process_kvk_nummers get0 0 ["10000001"%string] (default_writer, []) =
  ((default_writer, []), if existsb (found get0) ["10000001"%string]
                         then inl SessionNotInitialized else inr 0%nat).
Proof.
  split; [reflexivity|]. apply process_kvk_nummers_no_session. reflexivity.
Defined.

(** X8: on an open writer, [process_csv] fails only by re-raising the
    exception that opening or reading the file raised (a missing file: before
    any value is read).  Over the values read, it counts every value that is
    non-empty after [strip()] once, each counted value is either skipped or
    fetched, no KvK number already in the [basisprofiel] table when it starts
    is ever fetched, and [count_processed] is the number of fetched numbers
    for which a profile was found.  This holds for every [strip] function. *)
Theorem process_csv_spec py_strip get_basisprofiel now (file : csv_file) (s : State) :
  Open s ->
  exists s' c, Open s' /\
    process_csv py_strip get_basisprofiel now file s =
      (s', match snd file with None => inr c | Some e => inl (csv_exc e) end) /\
    count_total c = List.length (filter (nonblank py_strip) (List.concat (fst file))) /\
    count_total c = (count_skipped c + List.length (fetched c))%nat /\
    count_processed c = List.length (filter (found get_basisprofiel) (fetched c)) /\
    (forall k, In k (fetched c) ->
       ReaderMore.kvk_nummer_exists (table_db (snd s)) k = false).
Proof.
  intros HO. unfold process_csv.
  destruct (rows_progress get_basisprofiel now py_strip (fst file) (mkCsvCounters 0 0 0 []) s HO)
    as [s' [c [Hp [HO' [_ [HT [[new [HF HN]] HG]]]]]]].
  destruct (HG (conj eq_refl eq_refl)) as [G1 G2].
  exists s', c. split; [exact HO'|].
  split; [unfold bind; rewrite Hp; destruct (snd file); reflexivity|].
  split; [exact HT|]. split; [exact G1|]. split; [exact G2|].
  intros k Hk. rewrite HF in Hk. simpl in Hk.
  destruct (ReaderMore.kvk_nummer_exists (table_db (snd s)) k) eqn:E; [|reflexivity].
  exfalso. apply (HN k Hk). unfold table_db in E.
  apply ReaderMoreFacts.kvk_nummer_exists_keys, E.
Qed.

(** [str.strip()] on ASCII text: Python's whitespace there is 9..13 and
    28..32. *)
Definition py_isspace_ascii (ch : ascii) : bool :=
  let n := nat_of_ascii ch in
  (Nat.leb 9 n && Nat.leb n 13) || (Nat.leb 28 n && Nat.leb n 32).

Fixpoint lstrip_ascii (l : list ascii) : list ascii :=
  match l with
  | [] => []
  | ch :: r => if py_isspace_ascii ch then lstrip_ascii r else l
  end.

Definition py_strip_ascii (v : string) : string :=
  string_of_list_ascii (rev (lstrip_ascii (rev (lstrip_ascii (list_ascii_of_string v))))).

Definition file0 : csv_file := ([["10000001"%string; " "%string]], None).

Lemma process_csv_spec_witness :
  Open open0 /\
  exists s' c, Open s' /\
    process_csv py_strip_ascii get0 0 file0 open0 =
      (s', match snd file0 with None => inr c | Some e => inl (csv_exc e) end) /\
    count_total c = List.length (filter (nonblank py_strip_ascii) (List.concat (fst file0))) /\
    count_total c = (count_skipped c + List.length (fetched c))%nat /\
    count_processed c = List.length (filter (found get0) (fetched c)) /\
    (forall k, In k (fetched c) ->
       ReaderMore.kvk_nummer_exists (table_db (snd open0)) k = false).
Proof. split; [exact open0_Open | apply process_csv_spec, open0_Open]. Defined.

End BasisprofielAppFacts.

Module SyncFacts.
Import Store TimeSelector AutoWindow Fetch Sync FetchFacts.

Lemma get_timeselector_nil f t : get_timeselector f t = [] <-> t <= f.
Proof.
  unfold get_timeselector, get_timeselector_span. split.
  - intros H. destruct (Z_le_gt_dec t f) as [Hle|Hgt]; [exact Hle|].
    exfalso. destruct (Z.to_nat (t - f)) eqn:E; [lia|].
    simpl in H. destruct (Z.ltb_spec f t); [discriminate | lia].
  - intros H. destruct (Z.to_nat (t - f)); [reflexivity|].
    simpl. destruct (Z.ltb_spec f t); [lia | reflexivity].
Qed.

Lemma sync_range_opened client f t :
  writer_opened (sync_range client f t) = (f <? t).
Proof.
  unfold sync_range. destruct (get_timeselector f t) as [|w ws] eqn:E.
  - apply get_timeselector_nil in E. symmetry. apply Z.ltb_ge, E.
  - destruct (sync_windows client (w :: ws)). simpl. symmetry. apply Z.ltb_lt.
    destruct (Z_lt_ge_dec f t) as [H|H]; [exact H|].
    assert (H' : t <= f) by lia. apply get_timeselector_nil in H'. congruence.
Qed.







(** X9: [run_sync] in manual mode raises [ValueError] exactly when [--to]
    lies before [--from], and opens the signal writer exactly when [--from]
    lies strictly before [--to]: equal instants fetch nothing. *)
Theorem run_sync_manual_window client now ts sf st :
  (raised (run_sync client now ts (Manual sf st)) = Some ValueError <-> st < sf) /\
  writer_opened (run_sync client now ts (Manual sf st)) = (sf <? st).
Proof.
  simpl. unfold resolve_time_window_manual. destruct (Z.ltb_spec st sf) as [H|H].
  - split; [split; [intros _; exact H | reflexivity]|].
    symmetry. apply Z.ltb_ge. lia.
  - split; [|apply sync_range_opened]. split; [|lia]. intros E.
    unfold sync_range in E. destruct (get_timeselector sf st) as [|w ws]; [discriminate|].
    destruct (sync_windows client (w :: ws)) as [a [e|]]; discriminate.
Qed.

(** X10: [run_sync] in auto mode opens the signal writer exactly when the
    last stored signal is older than [now - 1 minute]; with an empty signal
    table it always fetches the last day. *)
Theorem run_sync_auto_opened client now ts :
  writer_opened (run_sync client now ts Auto) =
  match get_last_timestamp ts with
  | Some last => last <? now - MINUTE
  | None => true
  end.
Proof.
  simpl. unfold resolve_auto_on_store, resolve_time_window_auto.
  rewrite sync_range_opened.
  destruct (get_last_timestamp ts); [reflexivity|].
  apply Z.ltb_lt. unfold DAY. lia.
Qed.







End SyncFacts.
